(** * Chatbot: a Telegram assistant over a spreadsheet and a generative model

    A shallow embedding of [chatbot.py]: the handlers [handle_message],
    [clear_chat_history] and [start], the spreadsheet fetch
    [get_google_sheets_data], the answer generator
    [generate_gemini_response] and the sanitizer [sanitize_response],
    together with the parts of the Python runtime they rely on
    ([str.strip], [str.lower], [re.sub] on one-character patterns,
    [json.dumps]). *)

From Stdlib Require Import NArith ZArith List Bool Ascii String Lia.
From stdpp Require Import base option list gmap.

Open Scope N_scope.

(** ** Python strings

    A Python [str] is a sequence of Unicode code points. *)

Definition codepoint := N.
Abbreviation str := (list codepoint).

(** Source literals are written as in the (UTF-8 encoded) source file and
    decoded to code points. *)

Fixpoint utf8_decode (bs : list N) : str :=
  match bs with
  | [] => []
  | b0 :: r0 =>
    if b0 <? 0x80 then b0 :: utf8_decode r0
    else if b0 <? 0xE0 then
      match r0 with
      | b1 :: r1 =>
        N.lor (N.shiftl (N.land b0 0x1F) 6) (N.land b1 0x3F) :: utf8_decode r1
      | _ => []
      end
    else if b0 <? 0xF0 then
      match r0 with
      | b1 :: b2 :: r2 =>
        N.lor (N.shiftl (N.land b0 0x0F) 12)
          (N.lor (N.shiftl (N.land b1 0x3F) 6) (N.land b2 0x3F))
        :: utf8_decode r2
      | _ => []
      end
    else
      match r0 with
      | b1 :: b2 :: b3 :: r3 =>
        N.lor (N.shiftl (N.land b0 0x07) 18)
          (N.lor (N.shiftl (N.land b1 0x3F) 12)
             (N.lor (N.shiftl (N.land b2 0x3F) 6) (N.land b3 0x3F)))
        :: utf8_decode r3
      | _ => []
      end
  end.

Definition lit (s : string) : str :=
  utf8_decode (map N_of_ascii (list_ascii_of_string s)).

Definition chr (a : ascii) : codepoint := N_of_ascii a.

(** *** The Unicode character database

    [str.isspace], which [str.strip] and the regex class [\s] both use, is a
    short table and is written out.  [str.isalnum] (behind the regex class
    [\w]) and [str.lower] are written out for ASCII; beyond ASCII they are
    the interpreter's tables, taken as parameters. *)

Class UnicodeData := {
  isalnum_table : codepoint -> bool;
  lower_table : str -> str
}.

Definition isspace (c : codepoint) : bool :=
  (0x09 <=? c) && (c <=? 0x0D) || (0x1C <=? c) && (c <=? 0x20)
  || (c =? 0x85) || (c =? 0xA0) || (c =? 0x1680)
  || (0x2000 <=? c) && (c <=? 0x200A)
  || (c =? 0x2028) || (c =? 0x2029) || (c =? 0x202F) || (c =? 0x205F)
  || (c =? 0x3000).

Definition isascii (c : codepoint) : bool := c <? 0x80.

Definition ascii_isalnum (c : codepoint) : bool :=
  (0x30 <=? c) && (c <=? 0x39) || (0x41 <=? c) && (c <=? 0x5A)
  || (0x61 <=? c) && (c <=? 0x7A).

Definition ascii_lower (c : codepoint) : codepoint :=
  if (0x41 <=? c) && (c <=? 0x5A) then c + 0x20 else c.

Section Unicode.
Context `{UnicodeData}.

Definition isalnum (c : codepoint) : bool :=
  if isascii c then ascii_isalnum c else isalnum_table c.

(** [s.lower()] *)
Definition lower (s : str) : str :=
  if forallb isascii s then map ascii_lower s else lower_table s.
End Unicode.

(** [s.lstrip()], [s.rstrip()] and [s.strip()] with no argument: leading
    and trailing whitespace removed. *)

Fixpoint lstrip (s : str) : str :=
  match s with
  | c :: s' => if isspace c then lstrip s' else s
  | [] => []
  end.

Definition rstrip (s : str) : str := rev (lstrip (rev s)).

Definition strip (s : str) : str := rstrip (lstrip s).

(** ** [re.sub] for patterns that match exactly one character *)

Module re.

(** An element of a bracketed set: a category escape or a literal. *)
Inductive item :=
| word    (* \w *)
| space   (* \s *)
| char (c : codepoint).

Inductive pattern :=
| literal (c : codepoint)        (* an escaped literal such as \* *)
| set_not (items : list item).   (* [^...] *)

Section Matching.
Context `{UnicodeData}.

Definition item_matches (i : item) (c : codepoint) : bool :=
  match i with
  | word => isalnum c || (c =? chr "_")
  | space => isspace c
  | char d => c =? d
  end.

Definition matches (p : pattern) (c : codepoint) : bool :=
  match p with
  | literal d => c =? d
  | set_not items => negb (existsb (fun i => item_matches i c) items)
  end.

(** [re.sub(p, repl, s)]: every character the pattern matches is
    replaced, left to right; the others are copied. *)
Fixpoint sub (p : pattern) (repl : str) (s : str) : str :=
  match s with
  | [] => []
  | c :: s' => (if matches p c then repl else [c]) ++ sub p repl s'
  end.
End Matching.

End re.

(** ** The sanitizer *)

Section Sanitize.
Context `{UnicodeData}.

(** The set of [r"[^\w\s,.!?%€$£-]"]; the final [-] is a literal. *)
Definition essential : list re.item :=
  re.word :: re.space
  :: map re.char (lit ",.!?%€$£-").

Definition sanitize_response (response : str) : str :=
  let response := re.sub (re.literal (chr "*")) [] response in
  let response := re.sub (re.set_not essential) [] response in
  strip response.

(** The whitelist as the specification words it: word characters,
    whitespace, and the characters [, . ! ? % € $ £ -]. *)
Definition whitelist (c : codepoint) : bool :=
  (isalnum c || (c =? chr "_")) || isspace c
  || bool_decide (c ∈ lit ",.!?%€$£-").
End Sanitize.

(** Tables for evaluating examples: exact up to U+00FF; every higher code
    point is taken to be caseless and not alphanumeric, which is the case
    of the symbols the program's own literals use. *)

Definition latin1_isalnum (c : codepoint) : bool :=
  (c =? 0xAA) || (c =? 0xB2) || (c =? 0xB3) || (c =? 0xB5) || (c =? 0xB9)
  || (c =? 0xBA) || (0xBC <=? c) && (c <=? 0xBE)
  || (0xC0 <=? c) && (c <=? 0xD6) || (0xD8 <=? c) && (c <=? 0xF6)
  || (0xF8 <=? c) && (c <=? 0xFF).

Definition latin1_lower (c : codepoint) : codepoint :=
  if (0xC0 <=? c) && (c <=? 0xDE) && negb (c =? 0xD7) then c + 0x20
  else ascii_lower c.

Definition latin1 : UnicodeData :=
  {| isalnum_table := latin1_isalnum; lower_table := map latin1_lower |}.

(** ** [json.dumps] of the spreadsheet rows *)

Module json.

Definition hex_digit (d : N) : codepoint :=
  if d <? 10 then chr "0" + d else chr "a" + (d - 10).

(** ['\\u{0:04x}'.format(n)] *)
Definition u_escape (n : N) : str :=
  lit "\u" ++ map hex_digit
    [N.land (N.shiftr n 12) 0xF; N.land (N.shiftr n 8) 0xF;
     N.land (N.shiftr n 4) 0xF; N.land n 0xF].

(** One character under [ensure_ascii=True]: printable ASCII is copied,
    the quote, the backslash and the usual control characters have
    two-character escapes, anything else is written as UTF-16 escapes. *)
Definition escape_char (c : codepoint) : str :=
  if c =? 0x22 then lit "\" ++ [0x22]
  else if c =? chr "\" then lit "\\"
  else if (0x20 <=? c) && (c <=? 0x7E) then [c]
  else if c =? 0x08 then lit "\b"
  else if c =? 0x0C then lit "\f"
  else if c =? 0x0A then lit "\n"
  else if c =? 0x0D then lit "\r"
  else if c =? 0x09 then lit "\t"
  else if c <? 0x10000 then u_escape c
  else
    let n := c - 0x10000 in
    u_escape (N.lor 0xD800 (N.land (N.shiftr n 10) 0x3FF))
    ++ u_escape (N.lor 0xDC00 (N.land n 0x3FF)).

Definition encode_string (s : str) : str :=
  0x22 :: flat_map escape_char s ++ [0x22].

Fixpoint join (sep : str) (parts : list str) : str :=
  match parts with
  | [] => []
  | [p] => p
  | p :: ps => p ++ sep ++ join sep ps
  end.

Definition newline_indent (level : nat) : str :=
  0x0A :: repeat (chr " ") (2 * level).

(** A list at nesting depth [level] with [indent=2]: [[]] when empty,
    otherwise one item per line. *)
Definition encode_list (level : nat) (items : list str) : str :=
  match items with
  | [] => lit "[]"
  | _ =>
    lit "[" ++ newline_indent (S level)
    ++ join (lit "," ++ newline_indent (S level)) items
    ++ newline_indent level ++ lit "]"
  end.

(** [json.dumps(data, indent=2)] for rows of string cells. *)
Definition dumps (data : list (list str)) : str :=
  encode_list 0 (map (fun row => encode_list 1 (map encode_string row)) data).

End json.

(** ** Exceptions

    Only the position of an exception's class in the hierarchy and its
    [str()] rendering are used by the program. *)

Inductive exn_class :=
| HttpError        (* googleapiclient.errors.HttpError and its subclasses *)
| Exception        (* every other subclass of Exception *)
| BaseException.   (* outside Exception: CancelledError, KeyboardInterrupt *)

Record exn := mk_exn { class_of : exn_class; exn_str : str }.

(** [isinstance(e, c)], which decides whether [except c] catches [e]. *)
Definition isinstance (e : exn) (c : exn_class) : bool :=
  match c, class_of e with
  | HttpError, HttpError => true
  | HttpError, _ => false
  | Exception, BaseException => false
  | Exception, _ => true
  | BaseException, _ => true
  end.

Inductive result (A : Type) :=
| Return (a : A)
| Raise (e : exn).
Arguments Return {A} a.
Arguments Raise {A} e.

(** ** The outside world *)

Record ReplyKeyboardMarkup := {
  keyboard : list (list str);
  resize_keyboard : bool;
  one_time_keyboard : bool
}.

Definition MENU_KEYBOARD : ReplyKeyboardMarkup :=
  {| keyboard := [[lit "📅 Vigência do contrato 71"; lit "🗑 Limpar histórico"]];
     resize_keyboard := true; one_time_keyboard := false |}.

Record Credentials := {
  valid : bool;
  expired : bool;
  refresh_token : option str;
  to_json : str
}.

(** Every call that leaves the process. *)
Inductive call :=
| reply_text (chat_id : Z) (text : str) (reply_markup : option ReplyKeyboardMarkup)
| send_message (chat_id : Z) (text : str) (reply_markup : option ReplyKeyboardMarkup)
| get_chat_history (chat_id : Z)
| delete_message (chat_id : Z) (message_id : Z)
| from_authorized_user_info (info : str)
| refresh (creds : Credentials)
| run_local_server (client_config : option str)
| values_get (spreadsheetId : option str) (range : str)
| generate_content (model : str) (prompt : str).

(** What the process's configuration and the remote services answer while
    one update is handled.  A call either returns or raises. *)
Record World := {
  (* os.getenv at import time *)
  SPREADSHEET_ID : option str;
  GOOGLE_CLIENT_SECRET_JSON : option str;
  GOOGLE_TOKEN_JSON : option str;
  (* Credentials.from_authorized_user_info(json.loads(info)) *)
  authorized_user : str -> result Credentials;
  (* creds.refresh(Request()), giving the refreshed credentials *)
  refreshed : Credentials -> result Credentials;
  (* json.loads, InstalledAppFlow.from_client_config, run_local_server *)
  local_server : option str -> result Credentials;
  (* build(...) up to .execute(); the "values" entry of the response *)
  sheet_values : Credentials -> result (option (list (list str)));
  (* model.generate_content(prompt) and the .text of the response *)
  model_text : str -> result str;
  (* the messages get_chat_history yields, and how the iteration ends *)
  chat_history : Z -> list Z * option exn;
  (* whether a Telegram send or delete fails *)
  telegram : call -> option exn
}.

(** ** Process state *)

Record State := {
  USER_STATE : gmap Z str;
  environ : gmap str str;
  trace : list call
}.

Definition set_USER_STATE (f : gmap Z str -> gmap Z str) (st : State) : State :=
  {| USER_STATE := f (USER_STATE st); environ := environ st; trace := trace st |}.

Definition set_environ (f : gmap str str -> gmap str str) (st : State) : State :=
  {| USER_STATE := USER_STATE st; environ := f (environ st); trace := trace st |}.

Definition log (c : call) (st : State) : State :=
  {| USER_STATE := USER_STATE st; environ := environ st; trace := trace st ++ [c] |}.

(** ** The monad of handlers: state, and a result or an exception *)

Definition M (A : Type) : Type := State -> result A * State.

#[global] Instance M_ret : MRet M := fun A a st => (Return a, st).

#[global] Instance M_bind : MBind M := fun A B f m st =>
  match m st with
  | (Return a, st') => f a st'
  | (Raise e, st') => (Raise e, st')
  end.

Definition gets {A} (f : State -> A) : M A := fun st => (Return (f st), st).

Definition modify (f : State -> State) : M unit := fun st => (Return tt, f st).

(** An external call: recorded, and answered by the world. *)
Definition external {A} (c : call) (answer : result A) : M A :=
  fun st => (answer, log c st).

(** [try: body  except cls as e: handler e] *)
Definition try_except {A} (body : M A) (cls : exn_class) (handler : exn -> M A) : M A :=
  fun st =>
    match body st with
    | (Raise e, st') => if isinstance e cls then handler e st' else (Raise e, st')
    | r => r
    end.

(** Truth value of an optional string: [None] and the empty string are
    false. *)
Definition truthy (o : option str) : bool :=
  match o with
  | Some (_ :: _) => true
  | _ => false
  end.

(** ** The program *)

(** Accepted names (compared after lowercasing). *)
Definition AUTHORIZED_USERS : gset str :=
  {[ lit "raphael"; lit "mariana"; lit "nilza"; lit "matheus" ]}.

(** The value [handle_message] stores for an authorized chat. *)
Definition authorized : str := lit "authorized".

(** What [get_google_sheets_data] returns: a string or the rows;
    [isinstance(data, str)] is the test on the constructor. *)
Inductive data :=
| Str (s : str)
| Rows (values : list (list str)).

Section Program.
Context `{UnicodeData} (W : World).

(** A Telegram send or delete. *)
Definition bot (c : call) : M unit :=
  external c (match telegram W c with
              | None => Return tt
              | Some e => Raise e
              end).

Definition generate_gemini_response (prompt : str) : M str :=
  response ← external (generate_content (lit "gemini-1.5-pro-latest") prompt)
                      (model_text W prompt);
  mret (strip response).

(** The branch taken when there are no valid credentials: refresh, or
    the interactive flow; the new token is stored in [os.environ]. *)
Definition renew (creds : option Credentials) : M Credentials :=
  creds' ← match creds with
           | Some c =>
             if expired c && truthy (refresh_token c)
             then external (refresh c) (refreshed W c)
             else external (run_local_server (GOOGLE_CLIENT_SECRET_JSON W))
                           (local_server W (GOOGLE_CLIENT_SECRET_JSON W))
           | None =>
             external (run_local_server (GOOGLE_CLIENT_SECRET_JSON W))
                      (local_server W (GOOGLE_CLIENT_SECRET_JSON W))
           end;
  modify (set_environ <[lit "GOOGLE_TOKEN_JSON" := to_json creds']>);;
  mret creds'.

(** The statements before the [try]. *)
Definition credentials : M Credentials :=
  creds ← match GOOGLE_TOKEN_JSON W with
          | Some (c :: info) =>
            creds ← external (from_authorized_user_info (c :: info))
                             (authorized_user W (c :: info));
            mret (Some creds)
          | _ => mret None
          end;
  match creds with
  | Some c => if valid c then mret c else renew creds
  | None => renew creds
  end.

Definition get_google_sheets_data : M data :=
  creds ← credentials;
  try_except
    (values ← external (values_get (SPREADSHEET_ID W) (lit "Página1!A1:D28"))
                       (sheet_values W creds);
     match default [] values with
     | [] => mret (Str (lit "Nenhum dado encontrado."))
     | values => mret (Rows values)
     end)
    HttpError
    (fun err => mret (Str (exn_str err))).

Fixpoint delete_messages (chat_id : Z) (messages : list Z) : M unit :=
  match messages with
  | [] => mret tt
  | message_id :: rest =>
    bot (delete_message chat_id message_id);;
    delete_messages chat_id rest
  end.

Definition clear_chat_history (chat_id : Z) : M unit :=
  try_except
    (bot (send_message chat_id (lit "🗑 Limpando histórico de conversa...") None);;
     external (get_chat_history chat_id) (Return tt);;
     delete_messages chat_id (fst (chat_history W chat_id));;
     match snd (chat_history W chat_id) with
     | Some e => fun st => (Raise e, st)
     | None => mret tt
     end;;
     bot (send_message chat_id (lit "✅ Histórico limpo com sucesso!")
                       (Some MENU_KEYBOARD)))
    Exception
    (fun e =>
       bot (send_message chat_id (lit "⚠️ Erro ao limpar histórico: " ++ exn_str e)
                         None)).

Definition nl : str := [0x0A].

(** The f-string of [handle_message]. *)
Definition prompt_of (json_data user_text : str) : str :=
  nl ++ lit "    Você é um assistente especializado em análise de dados de planilhas. "
  ++ nl ++ lit "    Aqui estão os dados da planilha em formato JSON:"
  ++ nl ++ lit "    " ++ json_data
  ++ nl
  ++ nl ++ lit "    Responda à seguinte pergunta do usuário com base nesses dados:"
  ++ nl ++ lit "    " ++ user_text
  ++ nl ++ lit "    ".

Definition handle_message (chat_id : Z) (text : str) : M unit :=
  let user_text := lower (strip text) in
  user_state ← gets USER_STATE;
  if decide (user_state !! chat_id = None) then
    if decide (user_text ∈ AUTHORIZED_USERS) then
      modify (set_USER_STATE <[chat_id := authorized]>);;
      bot (reply_text chat_id (lit "✅ Acesso autorizado! Como posso te ajudar?")
                      (Some MENU_KEYBOARD))
    else
      bot (reply_text chat_id
             (lit "❌ Usuário não autorizado. Você não pode interagir com o bot.")
             None)
  else if decide (user_text = lit "📅 vigência do contrato 71") then
    bot (reply_text chat_id (lit "📌 O contrato 71 tem vigência até 29/04/2025.") None)
  else if decide (user_text = lit "🗑 limpar histórico") then
    clear_chat_history chat_id
  else
    data ← get_google_sheets_data;
    match data with
    | Str data =>
      bot (reply_text chat_id (lit "⚠️ Erro ao acessar a planilha: " ++ data) None)
    | Rows data =>
      let json_data := json.dumps data in
      let prompt := prompt_of json_data user_text in
      response ← generate_gemini_response prompt;
      let clean_response := sanitize_response response in
      bot (reply_text chat_id clean_response None)
    end.

Definition start (chat_id : Z) : M unit :=
  modify (set_USER_STATE (delete chat_id));;
  bot (reply_text chat_id
         (lit "👋 Olá! Sou um bot que analisa dados dos contratos. "
          ++ lit "Antes de continuar, por favor, me diga seu nome:")
         None).
End Program.

(** ** Dispatch ([main])

    The [/start] command goes to [start], any other text that is not a
    command to [handle_message].  The library's dispatch loop confines an
    exception to the update that raised it: the state left behind is kept
    and the next update is handled. *)

Inductive update :=
| command_start (chat_id : Z)
| text_message (chat_id : Z) (text : str).

Definition chat_of (u : update) : Z :=
  match u with
  | command_start chat_id => chat_id
  | text_message chat_id _ => chat_id
  end.

Section Dispatch.
Context `{UnicodeData}.

Definition handler (W : World) (u : update) : M unit :=
  match u with
  | command_start chat_id => start W chat_id
  | text_message chat_id text => handle_message W chat_id text
  end.

Definition process_update (st : State) (wu : World * update) : State :=
  snd (handler (fst wu) (snd wu) st).

Definition run_polling (updates : list (World * update)) (st : State) : State :=
  fold_left process_update updates st.
End Dispatch.

(** The state when the process starts: [USER_STATE = {}]. *)
Definition boot (env : gmap str str) : State :=
  {| USER_STATE := ∅; environ := env; trace := [] |}.

(** ** Vocabulary of the statements *)

(** A string that does not start with whitespace. *)
Definition clean_head (s : str) : Prop :=
  match s with
  | [] => True
  | c :: _ => isspace c = false
  end.

(** The services a call goes to. *)
Definition to_sheets (c : call) : bool :=
  match c with
  | from_authorized_user_info _ | refresh _ | run_local_server _ | values_get _ _ => true
  | _ => false
  end.

Definition to_model (c : call) : bool :=
  match c with
  | generate_content _ _ => true
  | _ => false
  end.

Definition to_chat (c : call) : bool :=
  match c with
  | reply_text _ _ _ | send_message _ _ _ => true
  | _ => false
  end.

(** [m] leaves [USER_STATE] alone and only adds calls satisfying [P] to
    the trace. *)
Definition confined {A} (P : call -> bool) (m : M A) : Prop :=
  forall st, USER_STATE (snd (m st)) = USER_STATE st
             /\ exists calls, trace (snd (m st)) = trace st ++ calls
                              /\ Forall (fun c => P c = true) calls.

(** ** Worlds and states for evaluating examples *)

Definition good_creds : Credentials :=
  {| valid := true; expired := false; refresh_token := Some (lit "1//0g");
     to_json := lit "{}" |}.

(** Every service answers. *)
Definition online : World :=
  {| SPREADSHEET_ID := Some (lit "1AbC");
     GOOGLE_CLIENT_SECRET_JSON := Some (lit "{}");
     GOOGLE_TOKEN_JSON := Some (lit "{}");
     authorized_user := fun _ => Return good_creds;
     refreshed := fun c => Return c;
     local_server := fun _ => Return good_creds;
     sheet_values := fun _ => Return (Some [[lit "Contrato"; lit "Vigência"];
                                            [lit "71"; lit "29/04/2025"]]);
     model_text := fun _ => Return (lit " O contrato **71** vence em 29/04/2025. ");
     chat_history := fun _ => ([], None);
     telegram := fun _ => None |}.

Definition forbidden : exn :=
  mk_exn HttpError (lit "<HttpError 403 when requesting the sheet: The caller does not have permission>").

Definition server_not_found : exn :=
  mk_exn Exception (lit "Unable to find the server at sheets.googleapis.com").

Definition quota_exceeded : exn :=
  mk_exn Exception (lit "429 Resource has been exhausted").

(** [online], but the spreadsheet request is answered as [answer]. *)
Definition with_sheet (answer : result (option (list (list str)))) : World :=
  {| SPREADSHEET_ID := SPREADSHEET_ID online;
     GOOGLE_CLIENT_SECRET_JSON := GOOGLE_CLIENT_SECRET_JSON online;
     GOOGLE_TOKEN_JSON := GOOGLE_TOKEN_JSON online;
     authorized_user := authorized_user online;
     refreshed := refreshed online;
     local_server := local_server online;
     sheet_values := fun _ => answer;
     model_text := model_text online;
     chat_history := chat_history online;
     telegram := telegram online |}.

(** [online], but the model raises [e]. *)
Definition with_model_error (e : exn) : World :=
  {| SPREADSHEET_ID := SPREADSHEET_ID online;
     GOOGLE_CLIENT_SECRET_JSON := GOOGLE_CLIENT_SECRET_JSON online;
     GOOGLE_TOKEN_JSON := GOOGLE_TOKEN_JSON online;
     authorized_user := authorized_user online;
     refreshed := refreshed online;
     local_server := local_server online;
     sheet_values := sheet_values online;
     model_text := fun _ => Raise e;
     chat_history := chat_history online;
     telegram := telegram online |}.

(** A state in which chat 5 has been authorized. *)
Definition chat5 : State := set_USER_STATE <[5%Z := authorized]> (boot ∅).

(** A string with no whitespace at either end. *)
Definition trimmed (s : str) : Prop := clean_head s /\ clean_head (rev s).

(** Several calls recorded at once. *)
Definition logs (calls : list call) (st : State) : State :=
  {| USER_STATE := USER_STATE st; environ := environ st; trace := trace st ++ calls |}.

(** [m] relates every state to the state it leaves by [R]. *)
Definition preserves {A} (R : State -> State -> Prop) (m : M A) : Prop :=
  forall st, R st (snd (m st)).

(** States with the same [os.environ], but for the stored token. *)
Definition same_environ_but_token (st st' : State) : Prop :=
  forall k, k <> lit "GOOGLE_TOKEN_JSON" -> environ st' !! k = environ st !! k.

(** States with the same [os.environ]. *)
Definition same_environ (st st' : State) : Prop := environ st' = environ st.

(** [m] does not read the state: its result, the calls it makes and the
    change it makes to [os.environ] are the same from every state, and it
    leaves [USER_STATE] alone. *)
Definition oblivious {A} (m : M A) : Prop :=
  exists r calls f, forall st,
    m st = (r, {| USER_STATE := USER_STATE st; environ := f (environ st);
                  trace := trace st ++ calls |}).

(** Printable ASCII, or a line feed. *)
Definition ascii_text (c : codepoint) : bool :=
  (c =? 0x0A) || (0x20 <=? c) && (c <=? 0x7E).

(** Stored credentials that have expired, and what refreshing them gives. *)
Definition stale_creds : Credentials :=
  {| valid := false; expired := true; refresh_token := Some (lit "1//0g");
     to_json := lit "{stale}" |}.

Definition fresh_creds : Credentials :=
  {| valid := true; expired := false; refresh_token := Some (lit "1//0g");
     to_json := lit "{fresh}" |}.

(** [online], but the stored token has expired. *)
Definition with_stale_token : World :=
  {| SPREADSHEET_ID := SPREADSHEET_ID online;
     GOOGLE_CLIENT_SECRET_JSON := GOOGLE_CLIENT_SECRET_JSON online;
     GOOGLE_TOKEN_JSON := GOOGLE_TOKEN_JSON online;
     authorized_user := fun _ => Return stale_creds;
     refreshed := fun _ => Return fresh_creds;
     local_server := local_server online;
     sheet_values := sheet_values online;
     model_text := model_text online;
     chat_history := chat_history online;
     telegram := telegram online |}.

(** [online], but no token was configured. *)
Definition without_token : World :=
  {| SPREADSHEET_ID := SPREADSHEET_ID online;
     GOOGLE_CLIENT_SECRET_JSON := GOOGLE_CLIENT_SECRET_JSON online;
     GOOGLE_TOKEN_JSON := None;
     authorized_user := authorized_user online;
     refreshed := refreshed online;
     local_server := local_server online;
     sheet_values := sheet_values online;
     model_text := model_text online;
     chat_history := chat_history online;
     telegram := telegram online |}.

(** [online], with a chat history and a behaviour of the Telegram calls. *)
Definition with_history (history : list Z * option exn)
    (fails : call -> option exn) : World :=
  {| SPREADSHEET_ID := SPREADSHEET_ID online;
     GOOGLE_CLIENT_SECRET_JSON := GOOGLE_CLIENT_SECRET_JSON online;
     GOOGLE_TOKEN_JSON := GOOGLE_TOKEN_JSON online;
     authorized_user := authorized_user online;
     refreshed := refreshed online;
     local_server := local_server online;
     sheet_values := sheet_values online;
     model_text := model_text online;
     chat_history := fun _ => history;
     telegram := fails |}.



Definition timed_out : exn := mk_exn Exception (lit "Timed out").

(** * Properties *)

(** ** The definitions at concrete inputs *)

Example lit_euro : lit "a€£📅" = [0x61; 0x20AC; 0xA3; 0x1F4C5].
Proof. reflexivity. Qed.

Example sanitize_bold :
  @sanitize_response latin1 (lit "  **Total**: R$ 1.200,50 (aprox.)
") = lit "Total R$ 1.200,50 aprox.".
Proof. vm_compute. reflexivity. Qed.


Example strip_lower : @lower latin1 (strip (lit "  Nilza
")) = lit "nilza".
Proof. reflexivity. Qed.

(** On ASCII input the result does not depend on the parameter tables. *)
Example sanitize_leading_space `{UnicodeData} :
  sanitize_response (lit " a*b/c ") = lit "abc".
Proof. reflexivity. Qed.

Example dumps_rows :
  json.dumps [[lit "Contrato"; lit "Vigência"]; []] =
  lit "[
  [
    " ++ [0x22] ++ lit "Contrato" ++ [0x22] ++ lit ",
    " ++ [0x22] ++ lit "Vig\u00eancia" ++ [0x22] ++ lit "
  ],
  []
]".
Proof. reflexivity. Qed.

(** A chat gives an accepted name and then asks a question: the last call
    is the reply with the sanitized answer of the model (the asterisks and
    the slashes of the date are gone). *)
Example question_answered :
  last (trace (@run_polling latin1
                 [(online, text_message 5 (lit "Nilza"));
                  (online, text_message 5 (lit "Qual o prazo do contrato 71?"))]
                 (boot ∅)))
  = Some (reply_text 5 (lit "O contrato 71 vence em 29042025.") None).
Proof. vm_compute. reflexivity. Qed.

(** The token in [os.environ] is rewritten when the stored one is no longer
    valid and can be refreshed. *)
Example refresh_writes_environ :
  environ (snd (credentials
                  {| SPREADSHEET_ID := None; GOOGLE_CLIENT_SECRET_JSON := None;
                     GOOGLE_TOKEN_JSON := Some (lit "{}");
                     authorized_user := fun _ =>
                       Return {| valid := false; expired := true;
                                 refresh_token := Some (lit "1//0g");
                                 to_json := lit "old" |};
                     refreshed := fun _ =>
                       Return {| valid := true; expired := false;
                                 refresh_token := Some (lit "1//0g");
                                 to_json := lit "new" |};
                     local_server := fun _ => Raise server_not_found;
                     sheet_values := fun _ => Return None;
                     model_text := fun _ => Return [];
                     chat_history := fun _ => ([], None);
                     telegram := fun _ => None |}
                  (boot ∅))) !! lit "GOOGLE_TOKEN_JSON"
  = Some (lit "new").
Proof. vm_compute. reflexivity. Qed.

(** ** Stripping *)

Lemma lstrip_clean_head s : clean_head (lstrip s).
Proof.
  induction s as [|c s IH]; simpl; [exact I|].
  destruct (isspace c) eqn:E; [exact IH | exact E].
Qed.

Lemma lstrip_fixed s : clean_head s -> lstrip s = s.
Proof. destruct s as [|c s]; simpl; [reflexivity|]. intros ->. reflexivity. Qed.

Lemma lstrip_idem s : lstrip (lstrip s) = lstrip s.
Proof. apply lstrip_fixed, lstrip_clean_head. Qed.

Lemma lstrip_snoc s c : isspace c = false -> lstrip (s ++ [c]) = lstrip s ++ [c].
Proof.
  intros Hc. induction s as [|d s IH]; simpl.
  - rewrite Hc. reflexivity.
  - destruct (isspace d); [exact IH | reflexivity].
Qed.

Lemma rstrip_cons s c : isspace c = false -> rstrip (c :: s) = c :: rstrip s.
Proof.
  intros Hc. unfold rstrip. simpl rev at 2.
  rewrite lstrip_snoc by exact Hc.
  rewrite rev_app_distr. reflexivity.
Qed.

Lemma rstrip_idem s : rstrip (rstrip s) = rstrip s.
Proof. unfold rstrip. rewrite rev_involutive, lstrip_idem. reflexivity. Qed.

Lemma strip_idem s : strip (strip s) = strip s.
Proof.
  unfold strip.
  pose proof (lstrip_clean_head s) as Hh.
  destruct (lstrip s) as [|c t]; [reflexivity|]. simpl in Hh.
  rewrite (rstrip_cons t c Hh).
  rewrite (lstrip_fixed (c :: rstrip t)) by exact Hh.
  rewrite <- (rstrip_cons t c Hh). apply rstrip_idem.
Qed.

Lemma Forall_lstrip (P : codepoint -> Prop) s : Forall P s -> Forall P (lstrip s).
Proof.
  induction 1 as [|c s Hc Hs IH]; simpl; [constructor|].
  destruct (isspace c); [exact IH | constructor; assumption].
Qed.

Lemma Forall_strip (P : codepoint -> Prop) s : Forall P s -> Forall P (strip s).
Proof.
  intros Hs. unfold strip, rstrip.
  apply Forall_rev, Forall_lstrip, Forall_rev, Forall_lstrip, Hs.
Qed.

(** ** Substitution by the empty string is a filter *)

Lemma filter_Forall_true (f : codepoint -> bool) s :
  Forall (fun c => f c = true) (List.filter f s).
Proof.
  induction s as [|c s IH]; simpl; [constructor|].
  destruct (f c) eqn:E; [constructor; assumption | exact IH].
Qed.

Lemma filter_fixed (f : codepoint -> bool) s :
  Forall (fun c => f c = true) s -> List.filter f s = s.
Proof.
  induction 1 as [|c s Hc Hs IH]; simpl; [reflexivity|].
  rewrite Hc, IH. reflexivity.
Qed.

Lemma filter_filter_absorb (f g : codepoint -> bool) s :
  (forall c, f c = true -> g c = true) ->
  List.filter f (List.filter g s) = List.filter f s.
Proof.
  intros Hfg. induction s as [|c s IH]; simpl; [reflexivity|].
  destruct (g c) eqn:Eg; simpl.
  - rewrite IH. reflexivity.
  - destruct (f c) eqn:Ef; [|exact IH].
    apply Hfg in Ef. congruence.
Qed.

Section SanitizeFacts.
Context `{UnicodeData}.

Lemma sub_empty p s :
  re.sub p [] s = List.filter (fun c => negb (re.matches p c)) s.
Proof.
  induction s as [|c s IH]; simpl; [reflexivity|].
  destruct (re.matches p c); simpl; rewrite IH; reflexivity.
Qed.

Lemma existsb_chars c (l : str) :
  existsb (fun i => re.item_matches i c) (map re.char l) = bool_decide (c ∈ l).
Proof.
  induction l as [|d l IH]; [reflexivity|].
  cbn [map existsb re.item_matches]. rewrite IH.
  destruct (N.eqb_spec c d) as [->|Hne]; cbn [orb].
  - symmetry. apply bool_decide_eq_true. left.
  - apply bool_decide_ext. rewrite elem_of_cons. tauto.
Qed.

Lemma whitelist_essential c :
  negb (re.matches (re.set_not essential) c) = whitelist c.
Proof.
  unfold whitelist, essential. cbn [re.matches]. rewrite negb_involutive.
  cbn [existsb re.item_matches]. rewrite existsb_chars.
  apply orb_assoc.
Qed.

Lemma whitelist_no_star : whitelist (chr "*") = false.
Proof. reflexivity. Qed.

Lemma sanitize_response_filter s :
  sanitize_response s = strip (List.filter whitelist s).
Proof.
  unfold sanitize_response. rewrite !sub_empty. f_equal.
  rewrite (filter_ext _ whitelist whitelist_essential).
  apply filter_filter_absorb. intros c Hc. cbn [re.matches].
  destruct (c =? chr "*") eqn:E; [|reflexivity].
  apply N.eqb_eq in E. subst c.
  rewrite whitelist_no_star in Hc. discriminate.
Qed.
End SanitizeFacts.

(** ** The sanitizer (C3, C4) *)

Section SanitizeClaims.
Context `{UnicodeData}.

Lemma sanitize_response_clean (s : str) :
Forall (fun c => c <> chr "*" /\ whitelist c = true) (sanitize_response s).
Proof.
rewrite sanitize_response_filter. apply Forall_strip.
eapply Forall_impl; [apply filter_Forall_true|].
intros c Hc. split; [|exact Hc].
intros ->. rewrite whitelist_no_star in Hc. discriminate.
Qed.

(** C3, as amended: for every input string the output of
  [sanitize_response] contains no [*] and no character outside the
  whitelist, and it is exactly the whitelist characters of the input,
  verbatim and in their original order, with leading and trailing
  whitespace removed. *)
Theorem sanitize_response_whitelist (s : str) :
Forall (fun c => c <> chr "*" /\ whitelist c = true) (sanitize_response s)
/\ sanitize_response s = strip (List.filter whitelist s).
Proof.
split; [apply sanitize_response_clean | apply sanitize_response_filter].
Qed.

(** C4: sanitizing twice is the same as sanitizing once. *)
Theorem sanitize_response_idempotent (s : str) :
sanitize_response (sanitize_response s) = sanitize_response s.
Proof.
rewrite (sanitize_response_filter (sanitize_response s)).
rewrite filter_fixed.
- rewrite sanitize_response_filter. apply strip_idem.
- eapply Forall_impl; [apply sanitize_response_clean|].
  intros c [_ Hc]. exact Hc.
Qed.

End SanitizeClaims.

(** C3 as stated fails: a leading space is a whitelist character of the
    input, and [strip] removes it, so the whitelist characters of [" a"]
    are not all found, in order, in the output ["a"]. *)
Lemma sanitize_response_drops_whitespace :
  ~ (Forall (fun c => c <> chr "*" /\ @whitelist latin1 c = true)
       (@sanitize_response latin1 (lit " a"))
     /\ sublist (List.filter (@whitelist latin1) (lit " a"))
          (@sanitize_response latin1 (lit " a"))).
Proof.
  intros [_ Hsub]. apply sublist_length in Hsub.
  vm_compute in Hsub. lia.
Qed.

(** ** What a computation may touch *)

Ltac run := unfold mbind, M_bind, mret, M_ret, gets, modify, external; simpl.

Section Confined.
Context {A B : Type} (P : call -> bool).

Lemma confined_ret (a : A) : confined P (mret a).
Proof. intros st. run. split; [reflexivity|]. exists []. by rewrite app_nil_r. Qed.

Lemma confined_raise (e : exn) : confined P (fun st => (@Raise A e, st)).
Proof. intros st. simpl. split; [reflexivity|]. exists []. by rewrite app_nil_r. Qed.

Lemma confined_external (c : call) (r : result A) :
  P c = true -> confined P (external c r).
Proof.
  intros Hc st. run. split; [reflexivity|]. exists [c]. split; [reflexivity|].
  by constructor.
Qed.

Lemma confined_environ f : confined P (modify (set_environ f)).
Proof. intros st. run. split; [reflexivity|]. exists []. by rewrite app_nil_r. Qed.

Lemma confined_bind (m : M A) (k : A -> M B) :
  confined P m -> (forall a, confined P (k a)) -> confined P (m ≫= k).
Proof.
  intros Hm Hk st. destruct (Hm st) as [Hu (calls & Ht & Hc)].
  unfold mbind, M_bind. destruct (m st) as [[a|e] st1]; simpl in *.
  - destruct (Hk a st1) as [Hu' (calls' & Ht' & Hc')].
    split; [congruence|]. exists (calls ++ calls').
    rewrite Ht', Ht, app_assoc. split; [reflexivity|]. by apply Forall_app.
  - split; [exact Hu|]. by exists calls.
Qed.

Lemma confined_try (m : M A) cls (h : exn -> M A) :
  confined P m -> (forall e, confined P (h e)) -> confined P (try_except m cls h).
Proof.
  intros Hm Hh st. destruct (Hm st) as [Hu (calls & Ht & Hc)].
  unfold try_except. destruct (m st) as [[a|e] st1]; simpl in *.
  - split; [exact Hu|]. by exists calls.
  - destruct (isinstance e cls); simpl.
    + destruct (Hh e st1) as [Hu' (calls' & Ht' & Hc')].
      split; [congruence|]. exists (calls ++ calls').
      rewrite Ht', Ht, app_assoc. split; [reflexivity|]. by apply Forall_app.
    + split; [exact Hu|]. by exists calls.
Qed.
End Confined.

Lemma confined_weaken {A} (P Q : call -> bool) (m : M A) :
  (forall c, P c = true -> Q c = true) -> confined P m -> confined Q m.
Proof.
  intros HPQ Hm st. destruct (Hm st) as [Hu (calls & Ht & Hc)].
  split; [exact Hu|]. exists calls. split; [exact Ht|].
  eapply Forall_impl; [exact Hc|]. exact HPQ.
Qed.

Create HintDb confined.
#[export] Hint Resolve confined_ret confined_raise confined_environ : confined.

Ltac confine :=
  repeat first
    [ apply confined_bind; [|intros ?]
    | apply confined_try; [|intros ?]
    | apply confined_external; reflexivity
    | match goal with
      | |- confined _ (match ?x with _ => _ end) => destruct x
      | |- confined _ (if ?b then _ else _) => destruct b
      end
    | solve [auto with confined] ].

Section ProgramFacts.
Context `{UnicodeData} (W : World).

Lemma confined_bot P c : P c = true -> confined P (bot W c).
Proof. intros Hc. unfold bot. by apply confined_external. Qed.

Lemma confined_renew creds : confined to_sheets (renew W creds).
Proof. unfold renew. confine. Qed.

Lemma confined_credentials : confined to_sheets (credentials W).
Proof. unfold credentials. confine; apply confined_renew. Qed.

Lemma confined_get_google_sheets_data :
  confined to_sheets (get_google_sheets_data W).
Proof. unfold get_google_sheets_data. confine. Qed.
End ProgramFacts.

Section HandlerFacts.
Context `{UnicodeData} (W : World).

Lemma confined_delete_messages P chat_id messages :
  (forall m, P (delete_message chat_id m) = true) ->
  confined P (delete_messages W chat_id messages).
Proof.
  intros HP. induction messages as [|m ms IH]; simpl.
  - apply confined_ret.
  - apply confined_bind; [apply confined_bot, HP | intros _; exact IH].
Qed.

Lemma confined_clear_chat_history chat_id :
  confined (fun c => negb (to_model c) && negb (to_sheets c))
           (clear_chat_history W chat_id).
Proof.
  unfold clear_chat_history.
  apply confined_try; [|intros e; by apply confined_bot].
  repeat (apply confined_bind; [|intros _]).
  - by apply confined_bot.
  - by apply confined_external.
  - by apply confined_delete_messages.
  - destruct (snd (chat_history W chat_id)); auto with confined.
  - by apply confined_bot.
Qed.

Lemma confined_generate_gemini_response prompt :
  confined to_model (generate_gemini_response W prompt).
Proof. unfold generate_gemini_response. confine. Qed.

(** The two ways through the branch for a chat without an entry. *)
Lemma handle_message_accept chat_id text st :
  USER_STATE st !! chat_id = None ->
  lower (strip text) ∈ AUTHORIZED_USERS ->
  snd (handle_message W chat_id text st) =
  log (reply_text chat_id (lit "✅ Acesso autorizado! Como posso te ajudar?")
         (Some MENU_KEYBOARD))
      (set_USER_STATE <[chat_id := authorized]> st).
Proof.
  intros Hnone Hin. unfold handle_message. run.
  rewrite decide_True by exact Hnone.
  rewrite decide_True by exact Hin.
  unfold bot. run. reflexivity.
Qed.

Lemma handle_message_reject chat_id text st :
  USER_STATE st !! chat_id = None ->
  lower (strip text) ∉ AUTHORIZED_USERS ->
  snd (handle_message W chat_id text st) =
  log (reply_text chat_id
         (lit "❌ Usuário não autorizado. Você não pode interagir com o bot.") None)
      st.
Proof.
  intros Hnone Hin. unfold handle_message. run.
  rewrite decide_True by exact Hnone.
  rewrite decide_False by exact Hin.
  unfold bot. run. reflexivity.
Qed.
End HandlerFacts.

(** ** The authorization gate (C1) and the fixed reply (C7) *)

Section Gate.
Context `{UnicodeData} (W : World).

(** C1: for a chat with no entry in [USER_STATE], a message whose stripped,
  lowercased text is one of the accepted names records the chat as
  authorized and replies with the fixed greeting and the menu keyboard;
  any other text gets the rejection reply and the chat still has no
  entry. *)
Theorem handle_message_gate (chat_id : Z) (text : str) (st : State) :
USER_STATE st !! chat_id = None ->
let st' := snd (handle_message W chat_id text st) in
(lower (strip text) ∈ AUTHORIZED_USERS ->
   USER_STATE st' = <[chat_id := authorized]> (USER_STATE st)
   /\ USER_STATE st' !! chat_id = Some authorized
   /\ trace st' = trace st ++
        [reply_text chat_id (lit "✅ Acesso autorizado! Como posso te ajudar?")
           (Some MENU_KEYBOARD)])
/\ (lower (strip text) ∉ AUTHORIZED_USERS ->
   USER_STATE st' = USER_STATE st
   /\ USER_STATE st' !! chat_id = None
   /\ trace st' = trace st ++
        [reply_text chat_id
           (lit "❌ Usuário não autorizado. Você não pode interagir com o bot.")
           None]).
Proof.
intros Hnone st'. subst st'. split; intros Hin.
- rewrite handle_message_accept by assumption. simpl.
  rewrite lookup_insert_eq. auto.
- rewrite handle_message_reject by assumption. simpl. auto.
Qed.

(** C7: for a chat with an entry in [USER_STATE], a message whose stripped,
  lowercased text is the caption of the contract button gets the fixed
  reply about the contract and nothing else happens: no call to the
  spreadsheet or to the model, whatever they would answer. *)
Theorem handle_message_contract_caption (chat_id : Z) (text : str) (st : State) :
is_Some (USER_STATE st !! chat_id) ->
lower (strip text) = lit "📅 vigência do contrato 71" ->
let st' := snd (handle_message W chat_id text st) in
USER_STATE st' = USER_STATE st
/\ environ st' = environ st
/\ trace st' = trace st ++
     [reply_text chat_id (lit "📌 O contrato 71 tem vigência até 29/04/2025.") None].
Proof.
intros Hsome Hcap st'. subst st'. unfold handle_message. run.
rewrite decide_False by (intros Hn; rewrite Hn in Hsome; by destruct Hsome).
rewrite decide_True by exact Hcap.
unfold bot. run. auto.
Qed.

End Gate.

(** The gate at chat 5, fresh after boot, sending [" Nilza "]. *)
Lemma handle_message_gate_witness :
  USER_STATE (boot ∅) !! 5%Z = None
  /\ @lower latin1 (strip (lit " Nilza ")) ∈ AUTHORIZED_USERS
  /\ USER_STATE (snd (@handle_message latin1 online 5 (lit " Nilza ") (boot ∅))) !! 5%Z
     = Some authorized.
Proof.
  assert (Hin : @lower latin1 (strip (lit " Nilza ")) ∈ AUTHORIZED_USERS)
    by (refine (bool_decide_unpack _ _); vm_compute; exact I).
  split; [reflexivity|]. split; [exact Hin|].
  apply (@handle_message_gate latin1 online 5%Z (lit " Nilza ") (boot ∅) eq_refl).
  exact Hin.
Defined.

(** The button caption as the keyboard sends it, from an authorized chat. *)
Lemma handle_message_contract_caption_witness :
  is_Some (USER_STATE (set_USER_STATE <[5%Z := authorized]> (boot ∅)) !! 5%Z)
  /\ @lower latin1 (strip (lit "📅 Vigência do contrato 71")) = lit "📅 vigência do contrato 71"
  /\ trace (snd (@handle_message latin1 online 5 (lit "📅 Vigência do contrato 71")
                   (set_USER_STATE <[5%Z := authorized]> (boot ∅))))
     = [reply_text 5 (lit "📌 O contrato 71 tem vigência até 29/04/2025.") None].
Proof.
  assert (Hs : is_Some (USER_STATE (set_USER_STATE <[5%Z := authorized]> (boot ∅)) !! 5%Z))
    by (exists authorized; reflexivity).
  assert (Hc : @lower latin1 (strip (lit "📅 Vigência do contrato 71"))
               = lit "📅 vigência do contrato 71") by (vm_compute; reflexivity).
  split; [exact Hs|]. split; [exact Hc|].
  apply (@handle_message_contract_caption latin1 online 5%Z _ _ Hs Hc).
Defined.

(** ** How handlers change [USER_STATE] *)

Lemma gets_bind {A B} (f : State -> A) (k : A -> M B) (st : State) :
  (gets f ≫= k) st = k (f st) st.
Proof. reflexivity. Qed.

Section Frame.
Context `{UnicodeData}.

Lemma start_USER_STATE W chat_id st :
  USER_STATE (snd (start W chat_id st)) = delete chat_id (USER_STATE st).
Proof. unfold start, bot. run. reflexivity. Qed.

(** [handle_message] either leaves the map as it is or records the chat
    of the message as authorized. *)
Lemma handle_message_USER_STATE W chat_id text st :
  USER_STATE (snd (handle_message W chat_id text st)) = USER_STATE st
  \/ USER_STATE (snd (handle_message W chat_id text st))
     = <[chat_id := authorized]> (USER_STATE st).
Proof.
  destruct (USER_STATE st !! chat_id) as [v|] eqn:Hst.
  - left. unfold handle_message. rewrite gets_bind.
    rewrite decide_False by congruence.
    match goal with
    | |- USER_STATE (snd (?m st)) = _ =>
      assert (Hm : confined (fun _ => true) m); [|apply (Hm st)]
    end.
    repeat lazymatch goal with
           | |- confined _ (if ?b then _ else _) => destruct b
           end.
    + by apply confined_bot.
    + eapply confined_weaken; [|apply confined_clear_chat_history]. done.
    + apply confined_bind.
      * eapply confined_weaken; [|apply confined_get_google_sheets_data]. done.
      * intros [s|rows]; [by apply confined_bot|].
        apply confined_bind.
        -- eapply confined_weaken; [|apply confined_generate_gemini_response]. done.
        -- intros response. by apply confined_bot.
  - destruct (decide (lower (strip text) ∈ AUTHORIZED_USERS)) as [Hin|Hin].
    + right. by rewrite handle_message_accept.
    + left. by rewrite handle_message_reject.
Qed.

Lemma process_update_frame st W u c :
  c <> chat_of u ->
  USER_STATE (process_update st (W, u)) !! c = USER_STATE st !! c.
Proof.
  intros Hc. unfold process_update.
  destruct u as [chat_id|chat_id text]; cbn [handler fst snd chat_of] in *.
  - rewrite start_USER_STATE. by apply lookup_delete_ne.
  - destruct (handle_message_USER_STATE W chat_id text st) as [-> | ->];
      [reflexivity|]. by apply lookup_insert_ne.
Qed.

Lemma process_update_only_authorized st wu :
  map_Forall (fun _ v => v = authorized) (USER_STATE st) ->
  map_Forall (fun _ v => v = authorized) (USER_STATE (process_update st wu)).
Proof.
  intros Hst. unfold process_update.
  destruct wu as [W [chat_id|chat_id text]]; cbn [handler fst snd].
  - rewrite start_USER_STATE. by apply map_Forall_delete.
  - destruct (handle_message_USER_STATE W chat_id text st) as [-> | ->];
      [exact Hst|]. by apply map_Forall_insert_2.
Qed.

Lemma run_polling_frame updates st c :
  Forall (fun wu => chat_of (snd wu) <> c) updates ->
  USER_STATE (run_polling updates st) !! c = USER_STATE st !! c.
Proof.
  intros Hall. revert st.
  induction Hall as [|[W u] updates Hu _ IH]; intros st; [reflexivity|].
  simpl in *. rewrite IH. apply process_update_frame. congruence.
Qed.

(** C2: whatever the state before, [/start] removes the chat's entry; the
  entry is still absent when the chat's next message arrives (updates of
  other chats may come in between), so that message goes through the
  branch for unauthorized chats: an accepted name authorizes again, any
  other text is rejected. *)
Theorem start_clears_authorization (W : World) (chat_id : Z) (st : State) :
let st1 := snd (start W chat_id st) in
USER_STATE st1 = delete chat_id (USER_STATE st)
/\ forall updates,
     Forall (fun wu => chat_of (snd wu) <> chat_id) updates ->
     let st2 := run_polling updates st1 in
     USER_STATE st2 !! chat_id = None
     /\ forall W' text,
          let st3 := snd (handle_message W' chat_id text st2) in
          (lower (strip text) ∈ AUTHORIZED_USERS ->
             st3 = log (reply_text chat_id
                          (lit "✅ Acesso autorizado! Como posso te ajudar?")
                          (Some MENU_KEYBOARD))
                       (set_USER_STATE <[chat_id := authorized]> st2))
          /\ (lower (strip text) ∉ AUTHORIZED_USERS ->
             st3 = log (reply_text chat_id
                          (lit "❌ Usuário não autorizado. Você não pode interagir com o bot.")
                          None)
                       st2).
Proof.
intros st1. split; [apply start_USER_STATE|].
intros updates Hall st2.
assert (Hnone : USER_STATE st2 !! chat_id = None).
{ subst st2. rewrite run_polling_frame by exact Hall.
  subst st1. rewrite start_USER_STATE. apply lookup_delete_eq. }
split; [exact Hnone|]. intros W' text st3. subst st3. split; intros Hin.
- by apply handle_message_accept.
- by apply handle_message_reject.
Qed.

(** C10: from the empty map the process starts with, after any sequence
  of updates every entry of [USER_STATE] holds the value ["authorized"];
  and handling an update changes no entry but that of the update's own
  chat. *)
Theorem USER_STATE_only_authorized :
(forall updates env c v,
    USER_STATE (run_polling updates (boot env)) !! c = Some v -> v = authorized)
/\ (forall W u st c,
      c <> chat_of u ->
      USER_STATE (process_update st (W, u)) !! c = USER_STATE st !! c).
Proof.
split.
- intros updates env.
  assert (Hinv : forall st, map_Forall (fun _ v => v = authorized) (USER_STATE st) ->
            map_Forall (fun _ v => v = authorized) (USER_STATE (run_polling updates st))).
  { induction updates as [|wu updates IH]; intros st Hst; [exact Hst|].
    simpl. apply IH, process_update_only_authorized, Hst. }
  intros c v. apply (Hinv (boot env)). apply map_Forall_empty.
- intros W u st c. apply process_update_frame.
Qed.

End Frame.

(** ** The spreadsheet fetch (C5, C9) and the default path (C6, C8) *)

Section Fetch.
Context (W : World).

Lemma get_google_sheets_data_after_credentials st creds st1 :
  credentials W st = (Return creds, st1) ->
  get_google_sheets_data W st =
  let st2 := log (values_get (SPREADSHEET_ID W) (lit "Página1!A1:D28")) st1 in
  match sheet_values W creds with
  | Return values =>
    match default [] values with
    | [] => (Return (Str (lit "Nenhum dado encontrado.")), st2)
    | rows => (Return (Rows rows), st2)
    end
  | Raise e =>
    if isinstance e HttpError then (Return (Str (exn_str e)), st2)
    else (Raise e, st2)
  end.
Proof.
  intros Hc. unfold get_google_sheets_data.
  unfold mbind at 1, M_bind at 1. rewrite Hc.
  unfold try_except, external, mbind, M_bind.
  destruct (sheet_values W creds) as [values|e]; [|reflexivity].
  destruct (default [] values); reflexivity.
Qed.

Lemma get_google_sheets_data_credentials_error st e st1 :
  credentials W st = (Raise e, st1) ->
  get_google_sheets_data W st = (Raise e, st1).
Proof.
  intros Hc. unfold get_google_sheets_data.
  unfold mbind at 1, M_bind at 1. rewrite Hc. reflexivity.
Qed.

(** C5, as amended: an [HttpError] raised by the spreadsheet request inside
  the [try] is caught and returned to the caller as the string [str(err)];
  an exception of any other class raised there, and any exception raised
  before the [try] while the credentials are loaded or renewed,
  propagates to the caller. *)
Theorem get_google_sheets_data_errors (st : State) :
(forall creds st1 e,
    credentials W st = (Return creds, st1) ->
    sheet_values W creds = Raise e ->
    fst (get_google_sheets_data W st) =
    if isinstance e HttpError then Return (Str (exn_str e)) else Raise e)
/\ (forall e st1,
      credentials W st = (Raise e, st1) ->
      fst (get_google_sheets_data W st) = Raise e).
Proof.
split.
- intros creds st1 e Hc He.
  rewrite (get_google_sheets_data_after_credentials _ _ _ Hc), He.
  cbn zeta. by destruct (isinstance e HttpError).
- intros e st1 Hc.
  by rewrite (get_google_sheets_data_credentials_error _ _ _ Hc).
Qed.

End Fetch.

(** C5 as stated fails: when the request cannot reach the server the
    client raises an exception that is not an [HttpError]; [except
    HttpError] does not catch it and the fetch raises. *)
Lemma get_google_sheets_data_transport_error :
  ~ (forall W st creds st1 e,
        credentials W st = (Return creds, st1) ->
        sheet_values W creds = Raise e ->
        fst (get_google_sheets_data W st) = Return (Str (exn_str e))).
Proof.
  intros Hclaim.
  specialize (Hclaim (with_sheet (Raise server_not_found)) (boot ∅) good_creds
                _ server_not_found eq_refl eq_refl).
  vm_compute in Hclaim. discriminate Hclaim.
Qed.

(** A request refused with status 403 comes back as a string. *)
Lemma get_google_sheets_data_errors_witness :
  sheet_values (with_sheet (Raise forbidden)) good_creds = Raise forbidden
  /\ fst (get_google_sheets_data (with_sheet (Raise forbidden)) (boot ∅))
     = Return (Str (exn_str forbidden)).
Proof.
  split; [reflexivity|].
  apply (proj1 (get_google_sheets_data_errors (with_sheet (Raise forbidden)) (boot ∅))
           good_creds _ forbidden eq_refl eq_refl).
Defined.

Section DefaultPath.
Context `{UnicodeData} (W : World).

(** An authorized chat whose text is neither caption reaches the fetch. *)
Lemma handle_message_default chat_id text st :
  is_Some (USER_STATE st !! chat_id) ->
  lower (strip text) <> lit "📅 vigência do contrato 71" ->
  lower (strip text) <> lit "🗑 limpar histórico" ->
  handle_message W chat_id text st =
  match get_google_sheets_data W st with
  | (Return (Str s), st1) =>
    bot W (reply_text chat_id (lit "⚠️ Erro ao acessar a planilha: " ++ s) None) st1
  | (Return (Rows rows), st1) =>
    match generate_gemini_response W
            (prompt_of (json.dumps rows) (lower (strip text))) st1 with
    | (Return response, st2) =>
      bot W (reply_text chat_id (sanitize_response response) None) st2
    | (Raise e, st2) => (Raise e, st2)
    end
  | (Raise e, st1) => (Raise e, st1)
  end.
Proof.
  intros Hsome Hc1 Hc2. unfold handle_message. rewrite gets_bind.
  rewrite decide_False by (intros Hn; rewrite Hn in Hsome; by destruct Hsome).
  rewrite decide_False by exact Hc1.
  rewrite decide_False by exact Hc2.
  unfold mbind at 1, M_bind at 1.
  destruct (get_google_sheets_data W st) as [[[s|rows]|e] st1]; reflexivity.
Qed.

Lemma fetch_trace st r st1 :
  get_google_sheets_data W st = (r, st1) ->
  exists calls, trace st1 = trace st ++ calls
                /\ Forall (fun c => to_sheets c = true) calls.
Proof.
  intros Hf. destruct (confined_get_google_sheets_data W st) as [_ Ht].
  rewrite Hf in Ht. exact Ht.
Qed.

Lemma handle_message_fetch_Str chat_id text st s st1 :
  is_Some (USER_STATE st !! chat_id) ->
  lower (strip text) <> lit "📅 vigência do contrato 71" ->
  lower (strip text) <> lit "🗑 limpar histórico" ->
  get_google_sheets_data W st = (Return (Str s), st1) ->
  exists calls,
    trace (snd (handle_message W chat_id text st)) =
    trace st ++ calls ++
      [reply_text chat_id (lit "⚠️ Erro ao acessar a planilha: " ++ s) None]
    /\ Forall (fun c => to_sheets c = true) calls.
Proof.
  intros Hsome Hc1 Hc2 Hf.
  rewrite handle_message_default by assumption. rewrite Hf.
  destruct (fetch_trace _ _ _ Hf) as (calls & Ht & Hcalls).
  exists calls. split; [|exact Hcalls].
  unfold bot, external. cbn [snd log trace]. rewrite Ht, app_assoc. reflexivity.
Qed.

(** C6: for a chat with an entry in [USER_STATE] and a text that is neither
  caption, if the fetch returns a string then the only calls made are
  those of the fetch followed by one reply, whose text is the error
  prefix followed by that string; the model is not called. *)
Theorem handle_message_fetch_failure (chat_id : Z) (text : str) (st : State)
  (s : str) (st1 : State) :
is_Some (USER_STATE st !! chat_id) ->
lower (strip text) <> lit "📅 vigência do contrato 71" ->
lower (strip text) <> lit "🗑 limpar histórico" ->
get_google_sheets_data W st = (Return (Str s), st1) ->
exists calls,
  trace (snd (handle_message W chat_id text st)) =
  trace st ++ calls ++
    [reply_text chat_id (lit "⚠️ Erro ao acessar a planilha: " ++ s) None]
  /\ Forall (fun c => to_sheets c = true) calls
  /\ forall model prompt,
       generate_content model prompt ∉
         calls ++ [reply_text chat_id (lit "⚠️ Erro ao acessar a planilha: " ++ s) None].
Proof.
intros Hsome Hc1 Hc2 Hf.
destruct (handle_message_fetch_Str chat_id text st s st1) as (calls & Ht & Hcalls);
  try assumption.
exists calls. split; [exact Ht|]. split; [exact Hcalls|].
intros model prompt Hin. apply elem_of_app in Hin as [Hin|Hin].
- rewrite Forall_forall in Hcalls. apply Hcalls in Hin. discriminate Hin.
- apply list_elem_of_singleton in Hin. discriminate Hin.
Qed.

(** C8: for a chat with an entry in [USER_STATE] and a text that is neither
  caption, if the fetch returns rows and the call to the model raises,
  [handle_message] raises that exception; the calls it made are those of
  the fetch and the one to the model, and none of them sends a message to
  the chat. *)
Theorem handle_message_model_failure (chat_id : Z) (text : str) (st : State)
  (rows : list (list str)) (st1 : State) (e : exn) :
is_Some (USER_STATE st !! chat_id) ->
lower (strip text) <> lit "📅 vigência do contrato 71" ->
lower (strip text) <> lit "🗑 limpar histórico" ->
get_google_sheets_data W st = (Return (Rows rows), st1) ->
model_text W (prompt_of (json.dumps rows) (lower (strip text))) = Raise e ->
fst (handle_message W chat_id text st) = Raise e
/\ exists calls,
     trace (snd (handle_message W chat_id text st)) =
     trace st ++ calls ++
       [generate_content (lit "gemini-1.5-pro-latest")
          (prompt_of (json.dumps rows) (lower (strip text)))]
     /\ Forall (fun c => to_sheets c = true) calls
     /\ Forall (fun c => to_chat c = false)
          (calls ++ [generate_content (lit "gemini-1.5-pro-latest")
                       (prompt_of (json.dumps rows) (lower (strip text)))]).
Proof.
intros Hsome Hc1 Hc2 Hf He.
rewrite handle_message_default by assumption. rewrite Hf.
unfold generate_gemini_response, external, mbind, M_bind. rewrite He.
cbn [fst snd log trace]. split; [reflexivity|].
destruct (fetch_trace _ _ _ Hf) as (calls & Ht & Hcalls).
exists calls. split; [by rewrite Ht, app_assoc|]. split; [exact Hcalls|].
apply Forall_app. split.
- eapply Forall_impl; [exact Hcalls|]. intros c Hcall. by destruct c.
- by constructor.
Qed.

(** C9: when the request succeeds with no rows, the fetch returns the
  string ["Nenhum dado encontrado."]; the handler then takes it for a
  failure: it replies with the error prefix followed by that string and
  never calls the model. *)
Theorem empty_sheet_is_failure (st : State) (creds : Credentials) (st1 : State)
  (values : option (list (list str))) :
credentials W st = (Return creds, st1) ->
sheet_values W creds = Return values ->
default [] values = [] ->
fst (get_google_sheets_data W st) = Return (Str (lit "Nenhum dado encontrado."))
/\ forall chat_id text,
     is_Some (USER_STATE st !! chat_id) ->
     lower (strip text) <> lit "📅 vigência do contrato 71" ->
     lower (strip text) <> lit "🗑 limpar histórico" ->
     exists calls,
       trace (snd (handle_message W chat_id text st)) =
       trace st ++ calls ++
         [reply_text chat_id
            (lit "⚠️ Erro ao acessar a planilha: " ++ lit "Nenhum dado encontrado.")
            None]
       /\ Forall (fun c => to_model c = false) calls.
Proof.
intros Hc Hv Hempty.
pose proof (get_google_sheets_data_after_credentials W st creds st1 Hc) as Hf.
rewrite Hv, Hempty in Hf. cbn zeta in Hf.
split; [by rewrite Hf|].
intros chat_id text Hsome Hc1 Hc2.
destruct (handle_message_fetch_Str chat_id text st _ _ Hsome Hc1 Hc2 Hf)
  as (calls & Ht & Hcalls).
exists calls. split; [exact Ht|].
eapply Forall_impl; [exact Hcalls|]. intros c Hcall. by destruct c.
Qed.

End DefaultPath.

(** ** The theorems at concrete inputs *)

Lemma start_clears_authorization_witness :
  Forall (fun wu : World * update => chat_of (snd wu) <> 5%Z)
    [(online, text_message 7 (lit "nilza"))]
  /\ USER_STATE (@run_polling latin1 [(online, text_message 7 (lit "nilza"))]
                   (snd (start online 5 chat5))) !! 5%Z = None.
Proof.
  assert (Hall : Forall (fun wu : World * update => chat_of (snd wu) <> 5%Z)
                   [(online, text_message 7 (lit "nilza"))])
    by (repeat constructor; simpl; lia).
  split; [exact Hall|].
  apply (proj2 (@start_clears_authorization latin1 online 5%Z chat5) _ Hall).
Defined.

Lemma USER_STATE_only_authorized_witness :
  7%Z <> chat_of (text_message 5 (lit "nilza"))
  /\ USER_STATE (@process_update latin1 (boot ∅) (online, text_message 5 (lit "nilza")))
       !! 7%Z = USER_STATE (boot ∅) !! 7%Z
  /\ exists v,
       USER_STATE (@run_polling latin1
                     [(online, text_message 5 (lit "nilza")); (online, command_start 7)]
                     (boot ∅)) !! 5%Z = Some v
       /\ v = authorized.
Proof.
  assert (Hne : 7%Z <> chat_of (text_message 5 (lit "nilza"))) by (simpl; lia).
  split; [exact Hne|]. split.
  - apply (proj2 (@USER_STATE_only_authorized latin1) online _ (boot ∅) 7%Z Hne).
  - eexists. split; [vm_compute; reflexivity|].
    apply (proj1 (@USER_STATE_only_authorized latin1)
             [(online, text_message 5 (lit "nilza")); (online, command_start 7)]
             ∅ 5%Z).
    vm_compute. reflexivity.
Defined.

Lemma question_is_no_caption :
  @lower latin1 (strip (lit "Qual o prazo do contrato 71?")) <> lit "📅 vigência do contrato 71"
  /\ @lower latin1 (strip (lit "Qual o prazo do contrato 71?")) <> lit "🗑 limpar histórico".
Proof. split; intros Heq; vm_compute in Heq; discriminate Heq. Defined.

Lemma chat5_authorized : is_Some (USER_STATE chat5 !! 5%Z).
Proof. exists authorized. reflexivity. Defined.

Lemma handle_message_fetch_failure_witness :
  get_google_sheets_data (with_sheet (Raise forbidden)) chat5
  = (Return (Str (exn_str forbidden)),
     snd (get_google_sheets_data (with_sheet (Raise forbidden)) chat5))
  /\ exists calls,
       trace (snd (@handle_message latin1 (with_sheet (Raise forbidden)) 5
                     (lit "Qual o prazo do contrato 71?") chat5)) =
       trace chat5 ++ calls ++
         [reply_text 5 (lit "⚠️ Erro ao acessar a planilha: " ++ exn_str forbidden) None]
       /\ Forall (fun c => to_sheets c = true) calls
       /\ forall model prompt,
            generate_content model prompt ∉
              calls ++ [reply_text 5 (lit "⚠️ Erro ao acessar a planilha: "
                                      ++ exn_str forbidden) None].
Proof.
  split; [reflexivity|].
  apply (@handle_message_fetch_failure latin1 (with_sheet (Raise forbidden)) 5%Z
           (lit "Qual o prazo do contrato 71?") chat5 _ _
           chat5_authorized (proj1 question_is_no_caption)
           (proj2 question_is_no_caption) eq_refl).
Defined.

Lemma handle_message_model_failure_witness :
  model_text (with_model_error quota_exceeded)
    (prompt_of (json.dumps [[lit "Contrato"; lit "Vigência"]; [lit "71"; lit "29/04/2025"]])
       (@lower latin1 (strip (lit "Qual o prazo do contrato 71?"))))
  = Raise quota_exceeded
  /\ fst (@handle_message latin1 (with_model_error quota_exceeded) 5
            (lit "Qual o prazo do contrato 71?") chat5) = Raise quota_exceeded.
Proof.
  split; [reflexivity|].
  apply (@handle_message_model_failure latin1 (with_model_error quota_exceeded) 5%Z
           (lit "Qual o prazo do contrato 71?") chat5 _ _ quota_exceeded
           chat5_authorized (proj1 question_is_no_caption)
           (proj2 question_is_no_caption) eq_refl eq_refl).
Defined.

Lemma empty_sheet_is_failure_witness :
  sheet_values (with_sheet (Return (Some []))) good_creds = Return (Some [])
  /\ fst (get_google_sheets_data (with_sheet (Return (Some []))) chat5)
     = Return (Str (lit "Nenhum dado encontrado.")).
Proof.
  split; [reflexivity|].
  apply (@empty_sheet_is_failure latin1 (with_sheet (Return (Some []))) chat5
           good_creds _ (Some []) eq_refl eq_refl eq_refl).
Defined.

(** * Further properties of the program *)

(** ** The sanitizer: what it keeps and what it can return *)

Lemma lstrip_split s :
  exists pre, s = pre ++ lstrip s /\ Forall (fun c => isspace c = true) pre.
Proof.
  induction s as [|c s (pre & Hs & Hpre)]; simpl.
  - by exists [].
  - destruct (isspace c) eqn:E.
    + exists (c :: pre). split; [simpl; by f_equal | by constructor].
    + by exists [].
Qed.

Lemma rstrip_split s :
  exists post, s = rstrip s ++ post /\ Forall (fun c => isspace c = true) post.
Proof.
  destruct (lstrip_split (rev s)) as (pre & Hs & Hpre).
  exists (rev pre). split; [|by apply Forall_rev].
  unfold rstrip. rewrite <- rev_app_distr, <- Hs. by rewrite rev_involutive.
Qed.

(** What [strip] removes is whitespace at the two ends. *)
Lemma strip_split s :
  exists pre post,
    s = pre ++ strip s ++ post
    /\ Forall (fun c => isspace c = true) pre
    /\ Forall (fun c => isspace c = true) post.
Proof.
  destruct (lstrip_split s) as (pre & Hs & Hpre).
  destruct (rstrip_split (lstrip s)) as (post & Ht & Hpost).
  exists pre, post. unfold strip. by rewrite <- Ht.
Qed.

Lemma strip_trimmed s : trimmed (strip s).
Proof.
  unfold strip, trimmed. split.
  - pose proof (lstrip_clean_head s) as Hh.
    destruct (lstrip s) as [|c t]; [exact I|]. simpl in Hh.
    by rewrite rstrip_cons.
  - unfold rstrip. rewrite rev_involutive. apply lstrip_clean_head.
Qed.

Lemma strip_fixed s : trimmed s -> strip s = s.
Proof.
  intros [Hl Hr]. unfold strip, rstrip.
  rewrite (lstrip_fixed s Hl), (lstrip_fixed (rev s) Hr). apply rev_involutive.
Qed.

Lemma lstrip_nil s : lstrip s = [] <-> Forall (fun c => isspace c = true) s.
Proof.
  induction s as [|c s IH]; simpl; [by split|].
  destruct (isspace c) eqn:E.
  - rewrite IH. split; [by constructor | by inversion 1].
  - split; [discriminate | inversion 1; congruence].
Qed.

Lemma strip_nil s : strip s = [] <-> Forall (fun c => isspace c = true) s.
Proof.
  split.
  - intros Hs. destruct (strip_split s) as (pre & post & Heq & Hpre & Hpost).
    rewrite Heq, Hs. by apply Forall_app.
  - intros Hs. apply lstrip_nil in Hs. unfold strip. by rewrite Hs.
Qed.

Lemma filter_sublist (f : codepoint -> bool) s : sublist (List.filter f s) s.
Proof.
  induction s as [|c s IH]; simpl; [constructor|].
  destruct (f c); by constructor.
Qed.

Lemma Forall_filter_iff (f : codepoint -> bool) (P : codepoint -> Prop) s :
  Forall P (List.filter f s) <-> Forall (fun c => f c = true -> P c) s.
Proof.
  induction s as [|c s IH]; simpl; [by split|].
  destruct (f c) eqn:E; rewrite ?Forall_cons, IH; intuition congruence.
Qed.

Section SanitizeMore.
Context `{UnicodeData}.

(** X1: the output of [sanitize_response] is obtained from the input by
    deleting characters only: nothing is added, replaced or reordered, and
    the output is never longer than the input. *)
Theorem sanitize_response_sublist (s : str) :
  sublist (sanitize_response s) s
  /\ (length (sanitize_response s) <= length s)%nat.
Proof.
  assert (Hsub : sublist (sanitize_response s) s).
  { rewrite sanitize_response_filter.
    destruct (strip_split (List.filter whitelist s)) as (pre & post & Heq & _ & _).
    etransitivity; [|apply filter_sublist]. rewrite Heq at 2.
    apply sublist_inserts_l, sublist_inserts_r. reflexivity. }
  split; [exact Hsub | by apply sublist_length].
Qed.

(** X2: the output of [sanitize_response] neither starts nor ends with a
    whitespace character. *)
Theorem sanitize_response_trimmed (s : str) : trimmed (sanitize_response s).
Proof. rewrite sanitize_response_filter. apply strip_trimmed. Qed.

(** X3: the strings [sanitize_response] returns unchanged are exactly those
    made of whitelist characters only with no whitespace at either end. *)
Theorem sanitize_response_fixed_iff (s : str) :
  sanitize_response s = s
  <-> Forall (fun c => whitelist c = true) s /\ trimmed s.
Proof.
  split.
  - intros Hs. split.
    + rewrite <- Hs. eapply Forall_impl; [apply sanitize_response_clean|].
      by intros c [_ Hc].
    + rewrite <- Hs. rewrite sanitize_response_filter. apply strip_trimmed.
  - intros [Hw Ht]. rewrite sanitize_response_filter, filter_fixed by exact Hw.
    by apply strip_fixed.
Qed.

(** X4: [sanitize_response] returns the empty string exactly when every
    whitelist character of the input is whitespace, in particular for the
    empty input and for an input made of removed characters only. *)
Theorem sanitize_response_empty_iff (s : str) :
  sanitize_response s = []
  <-> Forall (fun c => whitelist c = true -> isspace c = true) s.
Proof.
  rewrite sanitize_response_filter, strip_nil. apply Forall_filter_iff.
Qed.

End SanitizeMore.

(** ** The spreadsheet fetch: credentials and [os.environ] *)

Section Oblivious.
Context {A B : Type}.

Lemma oblivious_ret (a : A) : oblivious (mret a).
Proof.
  exists (Return a), [], id. intros [u e t]. run. by rewrite app_nil_r.
Qed.

Lemma oblivious_raise (e : exn) : oblivious (fun st => (@Raise A e, st)).
Proof.
  exists (Raise e), [], id. intros [u en t]. simpl. by rewrite app_nil_r.
Qed.

Lemma oblivious_external (c : call) (r : result A) : oblivious (external c r).
Proof. by exists r, [c], id. Qed.

Lemma oblivious_environ g : oblivious (modify (set_environ g)).
Proof.
  exists (Return tt), [], g. intros [u e t]. run.
  unfold set_environ. simpl. by rewrite app_nil_r.
Qed.

Lemma oblivious_bind (m : M A) (k : A -> M B) :
  oblivious m -> (forall a, oblivious (k a)) -> oblivious (m ≫= k).
Proof.
  intros (r & calls & f & Hm) Hk. destruct r as [a|e].
  - destruct (Hk a) as (r' & calls' & f' & Hka).
    exists r', (calls ++ calls'), (fun env => f' (f env)). intros st.
    unfold mbind, M_bind. rewrite Hm, Hka. simpl. by rewrite app_assoc.
  - exists (Raise e), calls, f. intros st.
    unfold mbind, M_bind. by rewrite Hm.
Qed.

Lemma oblivious_try (m : M A) cls (h : exn -> M A) :
  oblivious m -> (forall e, oblivious (h e)) -> oblivious (try_except m cls h).
Proof.
  intros (r & calls & f & Hm) Hh. destruct r as [a|e].
  - exists (Return a), calls, f. intros st. unfold try_except. by rewrite Hm.
  - destruct (isinstance e cls) eqn:Hi.
    + destruct (Hh e) as (r' & calls' & f' & Hhe).
      exists r', (calls ++ calls'), (fun env => f' (f env)). intros st.
      unfold try_except. rewrite Hm, Hi, Hhe. simpl. by rewrite app_assoc.
    + exists (Raise e), calls, f. intros st. unfold try_except. by rewrite Hm, Hi.
Qed.
End Oblivious.

Ltac obliviate :=
  repeat first
    [ apply oblivious_bind; [|intros ?]
    | apply oblivious_try; [|intros ?]
    | apply oblivious_external
    | apply oblivious_environ
    | apply oblivious_ret
    | apply oblivious_raise
    | match goal with
      | |- oblivious (match ?x with _ => _ end) => destruct x
      | |- oblivious (if ?b then _ else _) => destruct b
      end ].

Section Credentials.
Context (W : World).

Lemma credentials_valid st tok c :
  GOOGLE_TOKEN_JSON W = Some tok -> tok <> [] ->
  authorized_user W tok = Return c -> valid c = true ->
  credentials W st = (Return c, log (from_authorized_user_info tok) st).
Proof.
  intros Htok Hne Hc Hv. unfold credentials. rewrite Htok.
  destruct tok as [|t tok]; [done|].
  unfold mbind, M_bind, external. rewrite Hc. cbn [mret M_ret]. by rewrite Hv.
Qed.

(** X5: with a stored token that gives valid credentials, the fetch makes
    exactly two calls, loading the credentials and the request for the
    range, with no refresh and no interactive flow, and it leaves
    [os.environ] as it was. *)
Theorem get_google_sheets_data_valid_token (st : State) (tok : str) (c : Credentials) :
  GOOGLE_TOKEN_JSON W = Some tok -> tok <> [] ->
  authorized_user W tok = Return c -> valid c = true ->
  trace (snd (get_google_sheets_data W st)) =
    trace st ++ [from_authorized_user_info tok;
                 values_get (SPREADSHEET_ID W) (lit "Página1!A1:D28")]
  /\ environ (snd (get_google_sheets_data W st)) = environ st.
Proof.
  intros Htok Hne Hc Hv.
  rewrite (get_google_sheets_data_after_credentials W st c _
             (credentials_valid st tok c Htok Hne Hc Hv)).
  cbn zeta.
  destruct (sheet_values W c) as [values|e];
    [destruct (default [] values) | destruct (isinstance e HttpError)];
    simpl; by rewrite <- app_assoc.
Qed.

(** X6: when the stored credentials are not valid but expired with a refresh
    token, they are refreshed; the refreshed token is written to
    [os.environ] under [GOOGLE_TOKEN_JSON], and the refreshed credentials
    are the ones the fetch goes on with. *)
Theorem credentials_refresh (st : State) (tok : str) (c c' : Credentials) :
  GOOGLE_TOKEN_JSON W = Some tok -> tok <> [] ->
  authorized_user W tok = Return c ->
  valid c = false -> expired c = true -> truthy (refresh_token c) = true ->
  refreshed W c = Return c' ->
  credentials W st =
    (Return c',
     set_environ <[lit "GOOGLE_TOKEN_JSON" := to_json c']>
       (logs [from_authorized_user_info tok; refresh c] st)).
Proof.
  intros Htok Hne Hc Hv He Hr Hc'. unfold credentials. rewrite Htok.
  destruct tok as [|t tok]; [done|].
  unfold mbind at 1, M_bind at 1, external. unfold mbind at 1, M_bind at 1.
  rewrite Hc. cbn [mret M_ret]. rewrite Hv.
  unfold renew. rewrite He, Hr. cbn [andb].
  unfold mbind, M_bind, external, modify. rewrite Hc'. cbn [mret M_ret].
  unfold set_environ, logs, log. cbn [USER_STATE environ trace].
  by rewrite <- app_assoc.
Qed.

(** X7: with no stored token (unset or empty) the interactive flow is run
    with the client secret; the credentials it gives are used and their
    token is written to [os.environ]; if the flow raises, the exception
    propagates and [os.environ] is not written. *)
Theorem credentials_interactive_flow (st : State) :
  truthy (GOOGLE_TOKEN_JSON W) = false ->
  credentials W st =
    match local_server W (GOOGLE_CLIENT_SECRET_JSON W) with
    | Return c =>
      (Return c,
       set_environ <[lit "GOOGLE_TOKEN_JSON" := to_json c]>
         (log (run_local_server (GOOGLE_CLIENT_SECRET_JSON W)) st))
    | Raise e => (Raise e, log (run_local_server (GOOGLE_CLIENT_SECRET_JSON W)) st)
    end.
Proof.
  intros Htok. unfold credentials.
  destruct (GOOGLE_TOKEN_JSON W) as [[|t tok]|]; try discriminate Htok;
    unfold renew, mbind, M_bind, external, modify; cbn [mret M_ret];
    by destruct (local_server W (GOOGLE_CLIENT_SECRET_JSON W)).
Qed.

(** X8: a [Rows] result is never empty: a response without rows is
    returned as a string instead. *)
Theorem get_google_sheets_data_rows_nonempty (st : State) (rows : list (list str)) :
  fst (get_google_sheets_data W st) = Return (Rows rows) -> rows <> [].
Proof.
  destruct (credentials W st) as [[c|e] st1] eqn:Hc.
  - rewrite (get_google_sheets_data_after_credentials W st c st1 Hc). cbn zeta.
    destruct (sheet_values W c) as [values|e].
    + destruct (default [] values) eqn:Hd; simpl; [discriminate|].
      intros [= <-]. discriminate.
    + destruct (isinstance e HttpError); discriminate.
  - by rewrite (get_google_sheets_data_credentials_error W st e st1 Hc).
Qed.

Lemma oblivious_get_google_sheets_data : oblivious (get_google_sheets_data W).
Proof. unfold get_google_sheets_data, credentials, renew. obliviate. Qed.

(** X9: the fetch does not read the process state: from every state it
    gives the same result, makes the same calls and changes [os.environ]
    in the same way.  In particular the token it wrote to [os.environ] is
    not read back, so the next fetch starts again from the token read at
    import. *)
Theorem get_google_sheets_data_ignores_state :
  exists r calls f, forall st,
    get_google_sheets_data W st =
    (r, {| USER_STATE := USER_STATE st; environ := f (environ st);
           trace := trace st ++ calls |}).
Proof. exact oblivious_get_google_sheets_data. Qed.

End Credentials.

(** ** Clearing the history *)


Lemma logs_logs a b st : logs b (logs a st) = logs (a ++ b) st.
Proof. unfold logs. simpl. by rewrite app_assoc. Qed.

Lemma log_logs c a st : log c (logs a st) = logs (a ++ [c]) st.
Proof. apply (logs_logs a [c]). Qed.


Section ClearHistory.
Context (W : World).


Lemma bot_fails c e st : telegram W c = Some e -> bot W c st = (Raise e, log c st).
Proof. intros Hc. unfold bot, external. by rewrite Hc. Qed.





End ClearHistory.

(** ** What the handlers leave alone *)

Section Preserves.
Context {A B : Type} (R : State -> State -> Prop).
Context (R_refl : forall st, R st st).
Context (R_trans : forall a b c, R a b -> R b c -> R a c).

Lemma preserves_ret (a : A) : preserves R (mret a).
Proof. intros st. apply R_refl. Qed.

Lemma preserves_raise (e : exn) : preserves R (fun st => (@Raise A e, st)).
Proof. intros st. apply R_refl. Qed.

Lemma preserves_gets (f : State -> A) : preserves R (gets f).
Proof. intros st. apply R_refl. Qed.

Lemma preserves_external (c : call) (r : result A) :
  (forall st, R st (log c st)) -> preserves R (external c r).
Proof. intros Hc st. apply Hc. Qed.

Lemma preserves_modify (f : State -> State) :
  (forall st, R st (f st)) -> preserves R (modify f).
Proof. intros Hf st. apply Hf. Qed.

Lemma preserves_bind (m : M A) (k : A -> M B) :
  preserves R m -> (forall a, preserves R (k a)) -> preserves R (m ≫= k).
Proof.
  intros Hm Hk st. specialize (Hm st). unfold mbind, M_bind.
  destruct (m st) as [[a|e] st1]; simpl in *; [|exact Hm].
  eapply R_trans; [exact Hm | apply Hk].
Qed.

Lemma preserves_try (m : M A) cls (h : exn -> M A) :
  preserves R m -> (forall e, preserves R (h e)) -> preserves R (try_except m cls h).
Proof.
  intros Hm Hh st. specialize (Hm st). unfold try_except.
  destruct (m st) as [[a|e] st1]; simpl in *; [exact Hm|].
  destruct (isinstance e cls); [|exact Hm].
  eapply R_trans; [exact Hm | apply Hh].
Qed.
End Preserves.

Ltac preserve :=
  repeat first
    [ apply preserves_bind; [assumption | | intros ?]
    | apply preserves_try; [assumption | | intros ?]
    | apply preserves_external; solve [auto]
    | apply preserves_modify; solve [auto]
    | apply preserves_ret; assumption
    | apply preserves_raise; assumption
    | apply preserves_gets; assumption
    | match goal with
      | |- preserves _ (match ?x with _ => _ end) => destruct x
      | |- preserves _ (if ?b then _ else _) => destruct b
      end ].

Section HandlersPreserve.
Context `{UnicodeData} (W : World) (R : State -> State -> Prop).
Context (R_refl : forall st, R st st).
Context (R_trans : forall a b c, R a b -> R b c -> R a c).
Context (R_log : forall c st, R st (log c st)).

Lemma preserves_delete_messages chat_id messages :
  preserves R (delete_messages W chat_id messages).
Proof.
  induction messages as [|m ms IH]; simpl.
  - by apply preserves_ret.
  - apply preserves_bind; try assumption; [|intros _; exact IH].
    unfold bot. by apply preserves_external.
Qed.

(** Clearing the history only makes calls. *)
Lemma preserves_clear_chat_history chat_id :
  preserves R (clear_chat_history W chat_id).
Proof.
  unfold clear_chat_history, bot.
  apply preserves_try; try assumption; [|intros e; by apply preserves_external].
  repeat (apply preserves_bind; try assumption; [|intros _]);
    try (by apply preserves_external).
  - apply preserves_delete_messages.
  - destruct (snd (chat_history W chat_id));
      [by apply preserves_raise | by apply preserves_ret].
Qed.

Context (R_users : forall f st, R st (set_USER_STATE f st)).
Context (R_token : forall v st, R st (set_environ <[lit "GOOGLE_TOKEN_JSON" := v]> st)).

Lemma preserves_get_google_sheets_data : preserves R (get_google_sheets_data W).
Proof. unfold get_google_sheets_data, credentials, renew. preserve. Qed.

Lemma preserves_handle_message chat_id text :
  preserves R (handle_message W chat_id text).
Proof.
  unfold handle_message.
  apply preserves_bind; [assumption | by apply preserves_gets |]. intros user_state.
  repeat lazymatch goal with
         | |- preserves _ (if ?b then _ else _) => destruct b
         end.
  - unfold bot. preserve.
  - unfold bot. preserve.
  - unfold bot. preserve.
  - apply preserves_clear_chat_history.
  - apply preserves_bind; try assumption; [apply preserves_get_google_sheets_data|].
    intros [s|rows]; unfold generate_gemini_response, bot; preserve.
Qed.

Lemma preserves_start chat_id : preserves R (start W chat_id).
Proof. unfold start, bot. preserve. Qed.
End HandlersPreserve.

Lemma same_environ_refl st : same_environ st st.
Proof. reflexivity. Qed.

Lemma same_environ_trans a b c :
  same_environ a b -> same_environ b c -> same_environ a c.
Proof. unfold same_environ. congruence. Qed.

Lemma same_environ_but_token_refl st : same_environ_but_token st st.
Proof. by intros k _. Qed.

Lemma same_environ_but_token_trans a b c :
  same_environ_but_token a b -> same_environ_but_token b c ->
  same_environ_but_token a c.
Proof. intros Hab Hbc k Hk. by rewrite Hbc, Hab. Qed.

Lemma same_environ_but_token_write v st :
  same_environ_but_token st (set_environ <[lit "GOOGLE_TOKEN_JSON" := v]> st).
Proof. intros k Hk. simpl. by apply lookup_insert_ne. Qed.

Lemma captions_differ : lit "🗑 limpar histórico" <> lit "📅 vigência do contrato 71".
Proof. intros Heq. vm_compute in Heq. discriminate Heq. Qed.

(** ** The routes of [handle_message] for an authorized chat *)

Section Routes.
Context `{UnicodeData} (W : World).

Lemma handle_message_clear chat_id text st :
  is_Some (USER_STATE st !! chat_id) ->
  lower (strip text) = lit "🗑 limpar histórico" ->
  handle_message W chat_id text st = clear_chat_history W chat_id st.
Proof.
  intros Hsome Hcap. unfold handle_message. rewrite gets_bind.
  rewrite decide_False by (intros Hn; rewrite Hn in Hsome; by destruct Hsome).
  rewrite decide_False by (rewrite Hcap; apply captions_differ).
  by rewrite decide_True by exact Hcap.
Qed.

(** X12: for a chat with an entry in [USER_STATE], a message whose
    stripped, lowercased text is the caption of the cleanup button runs
    the cleanup and nothing else: [USER_STATE] and [os.environ] are
    unchanged, and no call goes to the spreadsheet or to the model. *)
Theorem handle_message_clear_caption (chat_id : Z) (text : str) (st : State) :
  is_Some (USER_STATE st !! chat_id) ->
  lower (strip text) = lit "🗑 limpar histórico" ->
  let st' := snd (handle_message W chat_id text st) in
  USER_STATE st' = USER_STATE st
  /\ environ st' = environ st
  /\ exists calls,
       trace st' = trace st ++ calls
       /\ Forall (fun c => to_sheets c = false /\ to_model c = false) calls.
Proof.
  intros Hsome Hcap st'. subst st'. rewrite handle_message_clear by assumption.
  destruct (confined_clear_chat_history W chat_id st) as [Hu (calls & Ht & Hc)].
  split; [exact Hu|]. split.
  - apply (preserves_clear_chat_history W same_environ
             same_environ_refl same_environ_trans (fun _ _ => eq_refl)).
  - exists calls. split; [exact Ht|].
    eapply Forall_impl; [exact Hc|]. intros c Hcall.
    apply andb_true_iff in Hcall as [Hm Hs].
    split; [by destruct (to_sheets c) | by destruct (to_model c)].
Qed.

(** X13: for a chat with an entry in [USER_STATE] and a text that is
    neither caption, when the fetch returns rows and the model answers,
    exactly two more calls are made: the model is asked with the prompt
    built from the rows and the stripped, lowercased text, and the chat
    gets the model's answer stripped and sanitized, so the reply holds
    no [*] and no character outside the whitelist. *)
Theorem handle_message_answer (chat_id : Z) (text : str) (st : State)
    (rows : list (list str)) (st1 : State) (response : str) :
  is_Some (USER_STATE st !! chat_id) ->
  lower (strip text) <> lit "📅 vigência do contrato 71" ->
  lower (strip text) <> lit "🗑 limpar histórico" ->
  get_google_sheets_data W st = (Return (Rows rows), st1) ->
  model_text W (prompt_of (json.dumps rows) (lower (strip text))) = Return response ->
  trace (snd (handle_message W chat_id text st)) =
    trace st1 ++
      [generate_content (lit "gemini-1.5-pro-latest")
         (prompt_of (json.dumps rows) (lower (strip text)));
       reply_text chat_id (sanitize_response (strip response)) None]
  /\ Forall (fun c => c <> chr "*" /\ whitelist c = true)
       (sanitize_response (strip response)).
Proof.
  intros Hsome Hc1 Hc2 Hf Hm. split; [|apply sanitize_response_clean].
  rewrite handle_message_default by assumption. rewrite Hf.
  unfold generate_gemini_response, external, mbind, M_bind. rewrite Hm.
  cbn [mret M_ret]. unfold bot, external. cbn [snd log trace].
  by rewrite <- app_assoc.
Qed.

(** X14: for a chat with an entry in [USER_STATE] and a text that is
    neither caption, when the fetch raises (credentials that cannot be
    loaded or renewed, or a request failing with anything but an
    [HttpError]), [handle_message] raises the same exception; the calls
    made are those of the fetch only, so the chat gets no message and the
    model is not called. *)
Theorem handle_message_fetch_raises (chat_id : Z) (text : str) (st : State)
    (e : exn) (st1 : State) :
  is_Some (USER_STATE st !! chat_id) ->
  lower (strip text) <> lit "📅 vigência do contrato 71" ->
  lower (strip text) <> lit "🗑 limpar histórico" ->
  get_google_sheets_data W st = (Raise e, st1) ->
  handle_message W chat_id text st = (Raise e, st1)
  /\ exists calls,
       trace st1 = trace st ++ calls
       /\ Forall (fun c => to_chat c = false /\ to_model c = false) calls.
Proof.
  intros Hsome Hc1 Hc2 Hf. split.
  - rewrite handle_message_default by assumption. by rewrite Hf.
  - destruct (fetch_trace W _ _ _ Hf) as (calls & Ht & Hcalls).
    exists calls. split; [exact Ht|].
    eapply Forall_impl; [exact Hcalls|]. intros c Hcall. by destruct c.
Qed.

(** [handle_message] does not touch the map when the chat has an entry. *)
Lemma handle_message_keeps_entries chat_id text st :
  is_Some (USER_STATE st !! chat_id) ->
  USER_STATE (snd (handle_message W chat_id text st)) = USER_STATE st.
Proof.
  intros Hsome.
  destruct (handle_message_USER_STATE W chat_id text st) as [Hu|Hu]; [exact Hu|].
  destruct (USER_STATE st !! chat_id) as [v|] eqn:Hst; [|by destruct Hsome].
  destruct (decide (lower (strip text) = lit "📅 vigência do contrato 71")) as [Hc1|Hc1].
  { unfold handle_message. rewrite gets_bind.
    rewrite decide_False by congruence. rewrite decide_True by exact Hc1.
    unfold bot, external. reflexivity. }
  destruct (decide (lower (strip text) = lit "🗑 limpar histórico")) as [Hc2|Hc2].
  { rewrite handle_message_clear by (try exact Hc2; rewrite ?Hst; eauto).
    apply (confined_clear_chat_history W chat_id st). }
  rewrite handle_message_default by (try assumption; rewrite ?Hst; eauto).
  destruct (confined_get_google_sheets_data W st) as [Hf _].
  destruct (get_google_sheets_data W st) as [[[s|rows]|e] st1]; simpl in Hf.
  - unfold bot, external. simpl. exact Hf.
  - destruct (confined_generate_gemini_response W
                (prompt_of (json.dumps rows) (lower (strip text))) st1) as [Hg _].
    destruct (generate_gemini_response W _ st1) as [[response|e] st2]; simpl in Hg.
    + unfold bot, external. simpl. congruence.
    + simpl. congruence.
  - exact Hf.
Qed.

End Routes.

(** ** Sequences of updates *)

Section Sequences.
Context `{UnicodeData}.

Lemma process_update_environ st wu :
  same_environ_but_token st (process_update st wu).
Proof.
  destruct wu as [W [chat_id|chat_id text]]; unfold process_update;
    cbn [handler fst snd];
    [apply (preserves_start W same_environ_but_token)
    |apply (preserves_handle_message W same_environ_but_token)];
    first [ exact same_environ_but_token_refl
          | exact same_environ_but_token_trans
          | exact same_environ_but_token_write
          | by intros ? ? ? _ ].
Qed.

(** X15: whatever updates are handled, the only variable of [os.environ]
    that can change is [GOOGLE_TOKEN_JSON]. *)
Theorem run_polling_environ (updates : list (World * update)) (st : State) (k : str) :
  k <> lit "GOOGLE_TOKEN_JSON" ->
  environ (run_polling updates st) !! k = environ st !! k.
Proof.
  intros Hk. revert st. induction updates as [|wu updates IH]; intros st;
    [reflexivity|].
  simpl. rewrite IH. by apply process_update_environ.
Qed.

(** X16: an entry of [USER_STATE] stays as it is until [/start] is handled
    for that chat: no message of the chat itself or of any other chat, and
    no [/start] of another chat, removes or changes it. *)
Theorem authorization_persists (updates : list (World * update)) (st : State)
    (chat_id : Z) (v : str) :
  USER_STATE st !! chat_id = Some v ->
  Forall (fun wu => snd wu <> command_start chat_id) updates ->
  USER_STATE (run_polling updates st) !! chat_id = Some v.
Proof.
  intros Hst Hall. revert st Hst.
  induction Hall as [|[W u] updates Hu _ IH]; intros st Hst; [exact Hst|].
  simpl. apply IH. simpl in Hu.
  destruct (decide (chat_id = chat_of u)) as [->|Hne].
  - destruct u as [c|c text]; [done|]. unfold process_update. cbn [handler fst snd].
    simpl in Hst. rewrite handle_message_keeps_entries by (rewrite Hst; eauto).
    exact Hst.
  - by rewrite process_update_frame.
Qed.

Lemma process_update_closed st W u :
  USER_STATE st = ∅ ->
  (forall chat_id text,
      u = text_message chat_id text -> lower (strip text) ∉ AUTHORIZED_USERS) ->
  USER_STATE (process_update st (W, u)) = ∅
  /\ exists chat_id text,
       trace (process_update st (W, u)) = trace st ++ [reply_text chat_id text None].
Proof.
  intros Hst Hu. unfold process_update.
  destruct u as [c|c text]; cbn [handler fst snd].
  - split; [rewrite start_USER_STATE, Hst; apply delete_empty|].
    unfold start, bot. run. eauto.
  - assert (Hnone : USER_STATE st !! c = None) by (rewrite Hst; apply lookup_empty).
    rewrite (handle_message_reject W c text st Hnone (Hu c text eq_refl)).
    split; [exact Hst|]. simpl. eauto.
Qed.

(** X17: as long as no message is an accepted name, nobody is authorized
    and the bot does nothing but reply, without keyboard: starting from an
    empty [USER_STATE], the map stays empty and every call made is a
    [reply_text] with no markup, so neither the spreadsheet nor the model
    is reached and no message is deleted. *)
Theorem no_name_no_access (updates : list (World * update)) (st : State) :
  USER_STATE st = ∅ ->
  Forall (fun wu => forall chat_id text,
            snd wu = text_message chat_id text ->
            lower (strip text) ∉ AUTHORIZED_USERS) updates ->
  USER_STATE (run_polling updates st) = ∅
  /\ exists calls,
       trace (run_polling updates st) = trace st ++ calls
       /\ Forall (fun c => exists chat_id text, c = reply_text chat_id text None) calls.
Proof.
  intros Hst Hall. revert st Hst.
  induction Hall as [|[W u] updates Hu _ IH]; intros st Hst.
  - split; [exact Hst|]. exists []. by rewrite app_nil_r.
  - change (run_polling ((W, u) :: updates) st)
      with (run_polling updates (process_update st (W, u))).
    destruct (process_update_closed st W u Hst Hu) as [Hst' (c & text & Ht')].
    destruct (IH _ Hst') as [Hu' (calls & Ht & Hc)].
    split; [exact Hu'|]. exists (reply_text c text None :: calls). split.
    + rewrite Ht, Ht'. by rewrite <- app_assoc.
    + constructor; [eauto | exact Hc].
Qed.

(** X18: for a chat without entry, an accepted name followed by [/start]
    leaves [USER_STATE] exactly as it was before the two updates. *)
Theorem authorize_then_start (W1 W2 : World) (chat_id : Z) (text : str) (st : State) :
  USER_STATE st !! chat_id = None ->
  lower (strip text) ∈ AUTHORIZED_USERS ->
  USER_STATE (run_polling [(W1, text_message chat_id text);
                           (W2, command_start chat_id)] st)
  = USER_STATE st.
Proof.
  intros Hnone Hin. unfold run_polling. cbn [fold_left].
  unfold process_update. cbn [handler fst snd].
  rewrite start_USER_STATE, handle_message_accept by assumption.
  cbn [log set_USER_STATE USER_STATE]. by apply delete_insert_id.
Qed.

End Sequences.

(** ** The JSON text put into the prompt *)

Lemma land_0xF (n : N) : N.land n 0xF < 16.
Proof.
  change 0xF with (N.ones 4). rewrite N.land_ones.
  apply N.mod_lt. discriminate.
Qed.

Lemma hex_digit_ascii (d : N) : d < 16 -> ascii_text (json.hex_digit d) = true.
Proof.
  intros Hd. unfold json.hex_digit, ascii_text.
  change (chr "0") with 48. change (chr "a") with 97.
  destruct (N.ltb_spec d 10);
    repeat (apply orb_true_iff; right); apply andb_true_iff;
    split; apply N.leb_le; lia.
Qed.

Lemma u_escape_ascii (n : N) :
  Forall (fun c => ascii_text c = true) (json.u_escape n).
Proof.
  unfold json.u_escape. apply Forall_app. split.
  - by repeat constructor.
  - repeat constructor; apply hex_digit_ascii, land_0xF.
Qed.

Lemma escape_char_ascii (c : codepoint) :
  Forall (fun c => ascii_text c = true) (json.escape_char c).
Proof.
  unfold json.escape_char.
  repeat match goal with
         | |- Forall _ (if ?b then _ else _) => destruct b eqn:?
         end;
    try (by repeat constructor);
    try apply u_escape_ascii.
  - constructor; [|constructor]. unfold ascii_text. by apply orb_true_iff; right.
  - apply Forall_app. split; apply u_escape_ascii.
Qed.

Lemma encode_string_ascii (s : str) :
  Forall (fun c => ascii_text c = true) (json.encode_string s).
Proof.
  unfold json.encode_string. constructor; [reflexivity|].
  apply Forall_app. split; [|by repeat constructor].
  induction s as [|c s IH]; simpl; [constructor|].
  apply Forall_app. split; [apply escape_char_ascii | exact IH].
Qed.

Lemma newline_indent_ascii (level : nat) :
  Forall (fun c => ascii_text c = true) (json.newline_indent level).
Proof.
  unfold json.newline_indent. constructor; [reflexivity|].
  induction (2 * level)%nat as [|n IH]; simpl; by constructor.
Qed.

Lemma join_ascii (sep : str) (parts : list str) :
  Forall (fun c => ascii_text c = true) sep ->
  Forall (Forall (fun c => ascii_text c = true)) parts ->
  Forall (fun c => ascii_text c = true) (json.join sep parts).
Proof.
  intros Hsep Hparts. induction Hparts as [|p ps Hp Hps IH]; [constructor|].
  destruct ps as [|q ps]; [exact Hp|].
  change (json.join sep (p :: q :: ps)) with (p ++ sep ++ json.join sep (q :: ps)).
  apply Forall_app. split; [exact Hp|]. apply Forall_app. by split.
Qed.

Lemma encode_list_ascii (level : nat) (items : list str) :
  Forall (Forall (fun c => ascii_text c = true)) items ->
  Forall (fun c => ascii_text c = true) (json.encode_list level items).
Proof.
  intros Hitems. unfold json.encode_list.
  destruct items as [|i items]; [by repeat constructor|].
  constructor; [reflexivity|].
  apply Forall_app. split; [apply newline_indent_ascii|].
  apply Forall_app. split.
  - apply join_ascii; [|exact Hitems].
    constructor; [reflexivity | apply newline_indent_ascii].
  - apply Forall_app. split; [apply newline_indent_ascii | by repeat constructor].
Qed.

(** X19: the JSON rendering of the rows that goes into the prompt is made
    of printable ASCII characters and line feeds only, whatever the cells
    hold: accented letters, emoji, quotes and control characters of the
    spreadsheet reach the model as escapes. *)
Theorem dumps_ascii (rows : list (list str)) :
  Forall (fun c => ascii_text c = true) (json.dumps rows).
Proof.
  unfold json.dumps. apply encode_list_ascii.
  apply Forall_map, Forall_forall. intros row _. apply encode_list_ascii.
  apply Forall_map, Forall_forall. intros cell _. apply encode_string_ascii.
Qed.

(** ** Stripping before sanitizing, and failing sends *)

Lemma lstrip_spaces_app pre s :
  Forall (fun c => isspace c = true) pre -> lstrip (pre ++ s) = lstrip s.
Proof. induction 1 as [|c pre Hc _ IH]; simpl; [reflexivity|]. by rewrite Hc. Qed.

Lemma rstrip_app_spaces s post :
  Forall (fun c => isspace c = true) post -> rstrip (s ++ post) = rstrip s.
Proof.
  intros Hpost. unfold rstrip. rewrite rev_app_distr.
  by rewrite lstrip_spaces_app by (by apply Forall_rev).
Qed.

Lemma strip_app_spaces s post :
  Forall (fun c => isspace c = true) post -> strip (s ++ post) = strip s.
Proof.
  intros Hpost. unfold strip. induction s as [|c s IH]; simpl.
  - apply lstrip_nil in Hpost. by rewrite Hpost.
  - destruct (isspace c); [exact IH|].
    by apply (rstrip_app_spaces (c :: s)).
Qed.

Lemma strip_pad pre s post :
  Forall (fun c => isspace c = true) pre ->
  Forall (fun c => isspace c = true) post ->
  strip (pre ++ s ++ post) = strip s.
Proof.
  intros Hpre Hpost. unfold strip at 1. rewrite lstrip_spaces_app by exact Hpre.
  by apply strip_app_spaces.
Qed.

Lemma filter_spaces (f : codepoint -> bool) s :
  (forall c, isspace c = true -> f c = true) ->
  Forall (fun c => isspace c = true) s -> List.filter f s = s.
Proof.
  intros Hf Hs. apply filter_fixed. eapply Forall_impl; [exact Hs|]. exact Hf.
Qed.

Section Composition.
Context `{UnicodeData} (W : World).

Lemma whitelist_space c : isspace c = true -> whitelist c = true.
Proof.
  intros Hc. unfold whitelist. rewrite Hc.
  by rewrite orb_true_r.
Qed.

(** X20: stripping a text before it is sanitized changes nothing: the
    reply on the default path is [sanitize_response] of the text of the
    model as it came, and the [strip] of [generate_gemini_response] has no
    effect on it. *)
Theorem sanitize_response_strip (response : str) :
  sanitize_response (strip response) = sanitize_response response.
Proof.
  rewrite !sanitize_response_filter.
  destruct (strip_split response) as (pre & post & Heq & Hpre & Hpost).
  rewrite Heq at 2. rewrite !List.filter_app.
  rewrite (filter_spaces whitelist pre whitelist_space Hpre).
  rewrite (filter_spaces whitelist post whitelist_space Hpost).
  by rewrite strip_pad.
Qed.

(** X21: the handlers change [USER_STATE] before they send their reply, so
    a reply that fails to be sent does not undo the change: the chat that
    gave an accepted name is authorized although the greeting raised, and
    the entry is removed by [/start] although the welcome raised. *)
Theorem state_changed_before_reply (chat_id : Z) (text : str) (st : State) (e : exn) :
  (USER_STATE st !! chat_id = None ->
   lower (strip text) ∈ AUTHORIZED_USERS ->
   telegram W (reply_text chat_id (lit "✅ Acesso autorizado! Como posso te ajudar?")
                 (Some MENU_KEYBOARD)) = Some e ->
   fst (handle_message W chat_id text st) = Raise e
   /\ USER_STATE (snd (handle_message W chat_id text st)) !! chat_id = Some authorized)
  /\ (telegram W (reply_text chat_id
                    (lit "👋 Olá! Sou um bot que analisa dados dos contratos. "
                     ++ lit "Antes de continuar, por favor, me diga seu nome:")
                    None) = Some e ->
      fst (start W chat_id st) = Raise e
      /\ USER_STATE (snd (start W chat_id st)) !! chat_id = None).
Proof.
  split.
  - intros Hnone Hin He. split.
    + unfold handle_message. rewrite gets_bind.
      rewrite decide_True by exact Hnone. rewrite decide_True by exact Hin.
      unfold mbind, M_bind, modify. by rewrite (bot_fails W _ e).
    + rewrite handle_message_accept by assumption. simpl. apply lookup_insert_eq.
  - intros He. split.
    + unfold start, mbind, M_bind, modify. by rewrite (bot_fails W _ e).
    + rewrite start_USER_STATE. apply lookup_delete_eq.
Qed.

End Composition.

(** ** The further properties at concrete inputs *)

Lemma token_not_empty : lit "{}" <> [].
Proof. discriminate. Defined.

Lemma get_google_sheets_data_valid_token_witness :
  GOOGLE_TOKEN_JSON online = Some (lit "{}")
  /\ valid good_creds = true
  /\ environ (snd (get_google_sheets_data online chat5)) = environ chat5.
Proof.
  split; [reflexivity|]. split; [reflexivity|].
  apply (get_google_sheets_data_valid_token online chat5 (lit "{}") good_creds
           eq_refl token_not_empty eq_refl eq_refl).
Defined.

Lemma credentials_refresh_witness :
  valid stale_creds = false
  /\ expired stale_creds = true
  /\ credentials with_stale_token (boot ∅) =
     (Return fresh_creds,
      set_environ <[lit "GOOGLE_TOKEN_JSON" := lit "{fresh}"]>
        (logs [from_authorized_user_info (lit "{}"); refresh stale_creds] (boot ∅))).
Proof.
  split; [reflexivity|]. split; [reflexivity|].
  apply (credentials_refresh with_stale_token (boot ∅) (lit "{}") stale_creds fresh_creds
           eq_refl token_not_empty eq_refl eq_refl eq_refl eq_refl eq_refl).
Defined.

Lemma credentials_interactive_flow_witness :
  truthy (GOOGLE_TOKEN_JSON without_token) = false
  /\ credentials without_token (boot ∅) =
     (Return good_creds,
      set_environ <[lit "GOOGLE_TOKEN_JSON" := lit "{}"]>
        (log (run_local_server (Some (lit "{}"))) (boot ∅))).
Proof.
  split; [reflexivity|].
  apply (credentials_interactive_flow without_token (boot ∅) eq_refl).
Defined.

Lemma get_google_sheets_data_rows_nonempty_witness :
  fst (get_google_sheets_data online chat5)
  = Return (Rows [[lit "Contrato"; lit "Vigência"]; [lit "71"; lit "29/04/2025"]])
  /\ [[lit "Contrato"; lit "Vigência"]; [lit "71"; lit "29/04/2025"]] <> [].
Proof.
  split; [reflexivity|].
  apply (get_google_sheets_data_rows_nonempty online chat5 _ eq_refl).
Defined.




Lemma handle_message_clear_caption_witness :
  @lower latin1 (strip (lit "🗑 Limpar histórico")) = lit "🗑 limpar histórico"
  /\ USER_STATE (snd (@handle_message latin1 online 5 (lit "🗑 Limpar histórico") chat5))
     = USER_STATE chat5.
Proof.
  assert (Hc : @lower latin1 (strip (lit "🗑 Limpar histórico")) = lit "🗑 limpar histórico")
    by (vm_compute; reflexivity).
  split; [exact Hc|].
  apply (@handle_message_clear_caption latin1 online 5%Z _ chat5 chat5_authorized Hc).
Defined.

Lemma handle_message_answer_witness :
  model_text online
    (prompt_of (json.dumps [[lit "Contrato"; lit "Vigência"]; [lit "71"; lit "29/04/2025"]])
       (@lower latin1 (strip (lit "Qual o prazo do contrato 71?"))))
  = Return (lit " O contrato **71** vence em 29/04/2025. ")
  /\ Forall (fun c => c <> chr "*" /\ @whitelist latin1 c = true)
       (@sanitize_response latin1 (strip (lit " O contrato **71** vence em 29/04/2025. "))).
Proof.
  split; [reflexivity|].
  apply (@handle_message_answer latin1 online 5%Z
           (lit "Qual o prazo do contrato 71?") chat5 _ _ _
           chat5_authorized (proj1 question_is_no_caption)
           (proj2 question_is_no_caption) eq_refl eq_refl).
Defined.

Lemma handle_message_fetch_raises_witness :
  get_google_sheets_data (with_sheet (Raise server_not_found)) chat5
  = (Raise server_not_found,
     snd (get_google_sheets_data (with_sheet (Raise server_not_found)) chat5))
  /\ @handle_message latin1 (with_sheet (Raise server_not_found)) 5
       (lit "Qual o prazo do contrato 71?") chat5
     = (Raise server_not_found,
        snd (get_google_sheets_data (with_sheet (Raise server_not_found)) chat5)).
Proof.
  split; [reflexivity|].
  apply (@handle_message_fetch_raises latin1 (with_sheet (Raise server_not_found)) 5%Z
           (lit "Qual o prazo do contrato 71?") chat5 _ _
           chat5_authorized (proj1 question_is_no_caption)
           (proj2 question_is_no_caption) eq_refl).
Defined.

Lemma run_polling_environ_witness :
  lit "PATH" <> lit "GOOGLE_TOKEN_JSON"
  /\ environ (@run_polling latin1
                [(with_stale_token, text_message 5 (lit "Qual o prazo do contrato 71?"))]
                chat5) !! lit "PATH"
     = environ chat5 !! lit "PATH".
Proof.
  assert (Hk : lit "PATH" <> lit "GOOGLE_TOKEN_JSON")
    by (intros Heq; vm_compute in Heq; discriminate Heq).
  split; [exact Hk|].
  apply (@run_polling_environ latin1 _ chat5 (lit "PATH") Hk).
Defined.

Lemma authorization_persists_witness :
  USER_STATE chat5 !! 5%Z = Some authorized
  /\ USER_STATE (@run_polling latin1
                   [(online, text_message 5 (lit "Qual o prazo do contrato 71?"));
                    (online, command_start 7)]
                   chat5) !! 5%Z = Some authorized.
Proof.
  split; [reflexivity|].
  apply (@authorization_persists latin1 _ chat5 5%Z authorized eq_refl).
  repeat constructor; discriminate.
Defined.

Lemma no_name_no_access_witness :
  USER_STATE (boot ∅) = ∅
  /\ USER_STATE (@run_polling latin1
                   [(online, text_message 5 (lit "admin")); (online, command_start 5);
                    (online, text_message 5 (lit "Qual o prazo do contrato 71?"))]
                   (boot ∅)) = ∅.
Proof.
  split; [reflexivity|].
  apply (@no_name_no_access latin1 _ (boot ∅) eq_refl).
  constructor; [|constructor; [|constructor; [|constructor]]];
    intros chat_id text Heq; cbn [snd] in Heq; try discriminate Heq;
    inversion Heq; subst;
    refine (bool_decide_eq_false_1 _ _); vm_compute; reflexivity.
Defined.

Lemma authorize_then_start_witness :
  USER_STATE (boot ∅) !! 5%Z = None
  /\ @lower latin1 (strip (lit "Matheus")) ∈ AUTHORIZED_USERS
  /\ USER_STATE (@run_polling latin1
                   [(online, text_message 5 (lit "Matheus")); (online, command_start 5)]
                   (boot ∅))
     = USER_STATE (boot ∅).
Proof.
  assert (Hin : @lower latin1 (strip (lit "Matheus")) ∈ AUTHORIZED_USERS)
    by (refine (bool_decide_unpack _ _); vm_compute; exact I).
  split; [reflexivity|]. split; [exact Hin|].
  apply (@authorize_then_start latin1 online online 5%Z (lit "Matheus") (boot ∅)
           eq_refl Hin).
Defined.

Lemma state_changed_before_reply_witness :
  USER_STATE (boot ∅) !! 5%Z = None
  /\ @lower latin1 (strip (lit "Raphael")) ∈ AUTHORIZED_USERS
  /\ fst (@handle_message latin1 (with_history ([], None) (fun _ => Some timed_out)) 5
            (lit "Raphael") (boot ∅)) = Raise timed_out
  /\ USER_STATE (snd (@handle_message latin1
                        (with_history ([], None) (fun _ => Some timed_out)) 5
                        (lit "Raphael") (boot ∅))) !! 5%Z = Some authorized.
Proof.
  assert (Hin : @lower latin1 (strip (lit "Raphael")) ∈ AUTHORIZED_USERS)
    by (refine (bool_decide_unpack _ _); vm_compute; exact I).
  split; [reflexivity|]. split; [exact Hin|].
  apply (proj1 (@state_changed_before_reply latin1
                  (with_history ([], None) (fun _ => Some timed_out)) 5%Z
                  (lit "Raphael") (boot ∅) timed_out)
           eq_refl Hin eq_refl).
Defined.
